(** * sbomreport-to-dependencytrack: upload orchestration

    A shallow embedding of the Go packages [dependencytrack] (the
    [DependencyTrack] client wrapper: [UploadBOM], [IsLatest],
    [AddTagsToProject]) and [uploader] ([Upload.Run]).

    Conventions.
    - A Go [error] return is an [option error]: [None] is [nil].
    - A Go [(T, error)] return is a [result T].
    - Calls on the remote service are functions on an explicit world; the
      world of the REST client carries the wall clock read by the timers of
      the poll loop.
    - [log.Printf] only writes to the process log and is left out. *)

From Stdlib Require Import ZArith List String Ascii Bool Lia.
From Stdlib Require Import Init.Byte.
Import ListNotations.

Local Open Scope string_scope.
Local Open Scope list_scope.
Local Open Scope Z_scope.

(** ** Errors and results *)

(** The error values that flow through the two packages. *)
Inductive error : Type :=
| errorString (msg : string)            (* errors.New, fmt.Errorf *)
| Canceled                              (* context.Canceled *)
| DeadlineExceeded                      (* context.DeadlineExceeded *)
| NumError (num : string) (range : bool) (* strconv.NumError: ErrSyntax / ErrRange *)
| ServiceError (msg : string).          (* any error of a collaborator *)

Inductive result (A : Type) : Type :=
| Ok (a : A)
| Fail (e : error).
Arguments Ok {A} a.
Arguments Fail {A} e.

Definition error_eqb (a b : error) : bool :=
  match a, b with
  | errorString x, errorString y => String.eqb x y
  | Canceled, Canceled => true
  | DeadlineExceeded, DeadlineExceeded => true
  | NumError x r, NumError y s => String.eqb x y && Bool.eqb r s
  | ServiceError x, ServiceError y => String.eqb x y
  | _, _ => false
  end.

(** ** Machine integers *)

Definition int64_min : Z := - 2 ^ 63.
Definition int64_max : Z := 2 ^ 63 - 1.
Definition uint64_max : Z := 2 ^ 64 - 1.

Definition is_int64 (x : Z) : Prop := int64_min <= x <= int64_max.

(** The conversion [int64(x)]: the low 64 bits of [x], read as signed. *)
Definition int64 (x : Z) : Z := (x + 2 ^ 63) mod 2 ^ 64 - 2 ^ 63.

(** ** strconv.ParseInt, base 10 *)

Module strconv.

Definition digit (c : ascii) : option Z :=
  let n := Z.of_nat (nat_of_ascii c) in
  if (48 <=? n) && (n <=? 57) then Some (n - 48) else None.

(** [ParseUint(s, 10, 64)] after its empty-string test: digits are read
    left to right; the first character that is no digit is a syntax error,
    the first overflow of 64 bits a range error. *)
Fixpoint uint_digits (s0 s : string) (n : Z) : result Z :=
  match s with
  | EmptyString => Ok n
  | String c rest =>
      match digit c with
      | None => Fail (NumError s0 false)
      | Some d =>
          if uint64_max <? n * 10 + d then Fail (NumError s0 true)
          else uint_digits s0 rest (n * 10 + d)
      end
  end.

Definition ParseUint10 (s0 s : string) : result Z :=
  match s with
  | EmptyString => Fail (NumError s0 false)
  | _ => uint_digits s0 s 0
  end.

(** [ParseInt(s, 10, bitSize)]: an optional sign, then [ParseUint]; the
    magnitude has to fit [bitSize] bits with the sign taken off. A range
    error of [ParseUint] is a range error here as well. *)
Definition ParseInt10 (s : string) (bitSize : Z) : result Z :=
  match s with
  | EmptyString => Fail (NumError s false)
  | String c rest =>
      let neg := Ascii.eqb c "-" in
      let body := if Ascii.eqb c "+" || neg then rest else s in
      match ParseUint10 s body with
      | Fail e => Fail e
      | Ok un =>
          let cutoff := 2 ^ (bitSize - 1) in
          if negb neg && (cutoff <=? un) then Fail (NumError s true)
          else if neg && (cutoff <? un) then Fail (NumError s true)
          else Ok (if neg then - un else un)
      end
  end.

End strconv.

(** ** encoding/base64: StdEncoding.EncodeToString *)

Module base64.

Definition alphabet : string :=
  "ABCDEFGHIJKLMNOPQRSTUVWXYZabcdefghijklmnopqrstuvwxyz0123456789+/".

Definition sextet (v : Z) : ascii :=
  match String.get (Z.to_nat (v mod 64)) alphabet with
  | Some c => c
  | None => "="%char
  end.

Definition octet (b : byte) : Z := Z.of_N (Byte.to_N b).

Fixpoint EncodeToString (src : list byte) : string :=
  match src with
  | [] => ""
  | [a] =>
      let v := octet a * 65536 in
      String (sextet (v / 262144)) (String (sextet (v / 4096)) "==")
  | [a; b] =>
      let v := octet a * 65536 + octet b * 256 in
      String (sextet (v / 262144))
        (String (sextet (v / 4096)) (String (sextet (v / 64)) "="))
  | a :: b :: c :: rest =>
      let v := octet a * 65536 + octet b * 256 + octet c in
      String (sextet (v / 262144))
        (String (sextet (v / 4096))
           (String (sextet (v / 64))
              (String (sextet v) (EncodeToString rest))))
  end.

End base64.

(** ** context.Context *)

Module context.

(** What the poll loop reads of a context: the instant at which [Done()]
    is closed ([None]: never) and the value [Err()] has from then on
    ([Canceled] or [DeadlineExceeded]). *)
Record Context : Type := {
  done_at : option Z;
  cause : error
}.

Definition Background : Context := {| done_at := None; cause := Canceled |}.

Definition Err (ctx : Context) (t : Z) : option error :=
  match done_at ctx with
  | Some d => if d <=? t then Some (cause ctx) else None
  | None => None
  end.

End context.

(** ** The world of the REST client *)

(** [srv] is whatever the tracking service and the network hold; [now] is
    the wall clock in nanoseconds. A call on the service may advance the
    clock by the time it takes. *)
Record World (S : Type) : Type := mkWorld {
  srv : S;
  now : Z
}.
Arguments mkWorld {S} srv now.
Arguments srv {S} w.
Arguments now {S} w.

Definition at_time {S : Type} (t : Z) (w : World S) : World S :=
  mkWorld (srv w) t.

(** ** github.com/DependencyTrack/client-go, as far as it is used *)

Module dtrack.

Record Tag : Type := { TagName : string }.

(** [dtrack.Project]: the fields the two packages read or write, and
    [Group] and [Description] standing for the metadata they leave at
    its zero value. [UUID] is the textual form of the identifier. *)
Record Project : Type := {
  UUID : string;
  Name : string;
  Version : string;
  Group : string;
  Description : string;
  Active : bool;
  LastBOMImport : Z;   (* Go int *)
  Tags : list Tag
}.

Record BOMUploadRequest : Type := {
  ProjectUUID : option string;
  ProjectName : string;
  ProjectVersion : string;
  ParentName : string;
  ParentVersion : string;
  AutoCreate : bool;
  BOM : string;
  IsLatest : option bool
}.

Definition EventToken : Type := string.

(** The services of [dtrack.Client] called by [DependencyTrack].
    [Project.Lookup] returns a [Project] together with its error:
    [Project_Lookup] is the pair as an [if err != nil] sees it, and
    [Project_Lookup_onError] is the [Project] that comes with an error that
    is not nil (the zero value, or what had been decoded of the answer when
    the call failed). *)
Record Client (S : Type) : Type := {
  Project_Lookup :
    context.Context -> string -> string -> World S -> result Project * World S;
  Project_Lookup_onError :
    context.Context -> string -> string -> World S -> Project;
  Project_Create :
    context.Context -> Project -> World S -> result Project * World S;
  Project_Update :
    context.Context -> Project -> World S -> result Project * World S;
  BOM_Upload :
    context.Context -> BOMUploadRequest -> World S -> result EventToken * World S;
  Event_IsBeingProcessed :
    context.Context -> EventToken -> World S -> result bool * World S
}.
Arguments Project_Lookup {S} c.
Arguments Project_Lookup_onError {S} c.
Arguments Project_Create {S} c.
Arguments Project_Update {S} c.
Arguments BOM_Upload {S} c.
Arguments Event_IsBeingProcessed {S} c.

(** *** A recording client

    The requests a client receives, each with the clock at which it was
    issued. [recording c] answers as [c] does and appends what it is
    asked to a journal kept next to the state of [c]. *)
Inductive Request : Type :=
| ReqLookup (name version : string)
| ReqCreate (p : Project)
| ReqUpdate (p : Project)
| ReqUpload (r : BOMUploadRequest)
| ReqIsBeingProcessed (token : EventToken).

Definition Journal : Type := list (Z * Request).

Definition inner {S : Type} (w : World (S * Journal)) : World S :=
  mkWorld (fst (srv w)) (now w).

Definition journal {S : Type} (w : World (S * Journal)) : Journal :=
  snd (srv w).

Definition note {S A : Type} (q : Request) (w : World (S * Journal))
    (r : A * World S) : A * World (S * Journal) :=
  (fst r, mkWorld (srv (snd r), journal w ++ [(now w, q)]) (now (snd r))).

Definition recording {S : Type} (c : Client S) : Client (S * Journal) := {|
  Project_Lookup ctx name version w :=
    note (ReqLookup name version) w (Project_Lookup c ctx name version (inner w));
  Project_Lookup_onError ctx name version w :=
    Project_Lookup_onError c ctx name version (inner w);
  Project_Create ctx p w :=
    note (ReqCreate p) w (Project_Create c ctx p (inner w));
  Project_Update ctx p w :=
    note (ReqUpdate p) w (Project_Update c ctx p (inner w));
  BOM_Upload ctx r w :=
    note (ReqUpload r) w (BOM_Upload c ctx r (inner w));
  Event_IsBeingProcessed ctx token w :=
    note (ReqIsBeingProcessed token) w (Event_IsBeingProcessed c ctx token (inner w))
|}.

Definition lookupOrUpdate (q : Z * Request) : Prop :=
  match snd q with
  | ReqLookup _ _ | ReqUpdate _ => True
  | _ => False
  end.

End dtrack.

(** ** Outcomes of code that may block *)

(** The poll loop of [UploadBOM] need not return: [Unfinished] is a run
    still inside the loop when the fuel given to the model is used up.
    [Panicked] is a run-time panic. *)
Inductive Outcome (A : Type) : Type :=
| Returned (a : A)
| Panicked (msg : string)
| Unfinished.
Arguments Returned {A} a.
Arguments Panicked {A} msg.
Arguments Unfinished {A}.

(** ** package dependencytrack: the interface *)

Module DependencyTrackClient.

(** [type DependencyTrackClient interface], over the world [W] its
    implementation acts on. *)
Record DependencyTrackClient (W : Type) : Type := {
  UploadBOM :
    context.Context -> string -> string -> string -> string -> list byte ->
    bool -> string -> string -> W -> option error * W;
  AddTagsToProject :
    context.Context -> string -> string -> list string -> string -> string ->
    W -> option error * W;
  IsLatest :
    context.Context -> string -> string -> Z -> W -> bool * W
}.
Arguments UploadBOM {W} d.
Arguments AddTagsToProject {W} d.
Arguments IsLatest {W} d.

(** The calls made through the interface, with their arguments. *)
Inductive Call : Type :=
| CallUploadBOM (projectName projectVersion parentName parentVersion : string)
    (bom : list byte) (isLatest : bool) (group description : string)
| CallAddTagsToProject (projectName projectVersion : string)
    (tags : list string) (namespace serviceName : string)
| CallIsLatest (projectName projectVersion : string) (updateTimestamp : Z).

(** [spy d] behaves as [d] and appends every call it receives to a list
    kept next to the world of [d]. *)
Definition spy {W : Type} (d : DependencyTrackClient W)
    : DependencyTrackClient (W * list Call) := {|
  UploadBOM ctx pn pv parn parv bom isLatest g desc wl :=
    let (e, w') := UploadBOM d ctx pn pv parn parv bom isLatest g desc (fst wl) in
    (e, (w', snd wl ++ [CallUploadBOM pn pv parn parv bom isLatest g desc]));
  AddTagsToProject ctx pn pv tags ns svc wl :=
    let (e, w') := AddTagsToProject d ctx pn pv tags ns svc (fst wl) in
    (e, (w', snd wl ++ [CallAddTagsToProject pn pv tags ns svc]));
  IsLatest ctx pn pv ts wl :=
    let (b, w') := IsLatest d ctx pn pv ts (fst wl) in
    (b, (w', snd wl ++ [CallIsLatest pn pv ts]))
|}.

Definition isAddTags (c : Call) : bool :=
  match c with CallAddTagsToProject _ _ _ _ _ => true | _ => false end.
Definition isUploadBOM (c : Call) : bool :=
  match c with CallUploadBOM _ _ _ _ _ _ _ _ => true | _ => false end.
Definition isIsLatest (c : Call) : bool :=
  match c with CallIsLatest _ _ _ => true | _ => false end.

End DependencyTrackClient.

(** ** package dependencytrack: the implementation *)

Module DependencyTrack.
Import dtrack.

(** [type DependencyTrack struct]; durations are nanoseconds. *)
Record DependencyTrack (S : Type) : Type := {
  Client : dtrack.Client S;
  SBOMUploadTimeout : Z;
  SBOMUploadCheckInterval : Z
}.
Arguments Client {S} d.
Arguments SBOMUploadTimeout {S} d.
Arguments SBOMUploadCheckInterval {S} d.

(** *** The select statement of the poll loop

    The three communications of the [select], in the order of the source. *)
Inductive SelectCase : Type :=
| caseTick       (* case <-ticker.C *)
| caseTimeout    (* case <-time.After(dt.SBOMUploadTimeout) *)
| caseDone.      (* case <-ctx.Done() *)

(** Go chooses among the communications that can proceed by a uniform
    pseudo-random selection; the scheduler gives that choice, as an index
    into the communications ready at a given instant. *)
Definition Scheduler : Type := Z -> list SelectCase -> nat.

(** The instant at which each communication can proceed, for a [select]
    entered at [t]. [nextTick] is the instant of the ticker's first tick
    not yet received: a tick already sent waits in the channel, so the
    receive can proceed at once. [time.After] is evaluated on entering the
    select and fires [timeout] later (at once when [timeout <= 0]). *)
Definition arms (ctx : context.Context) (timeout t nextTick : Z)
    : list (SelectCase * Z) :=
  (caseTick, Z.max t nextTick)
  :: (caseTimeout, t + Z.max 0 timeout)
  :: match context.done_at ctx with
     | Some d => [(caseDone, Z.max t d)]
     | None => []
     end.

Definition earliest (l : list (SelectCase * Z)) (bound : Z) : Z :=
  fold_right (fun a m => Z.min (snd a) m) bound l.

(** The select blocks until the first instant at which a communication
    can proceed and takes one of those that can. *)
Definition select (pick : Scheduler) (ctx : context.Context)
    (timeout t nextTick : Z) : SelectCase * Z :=
  let l := arms ctx timeout t nextTick in
  let wake := earliest l (t + Z.max 0 timeout) in
  let ready := map fst (filter (fun a => snd a =? wake) l) in
  (nth (Nat.modulo (pick wake ready) (List.length ready)) ready caseTimeout, wake).

(** What the goroutine sends before it returns: a value on [doneChan] or
    an error on [errChan]. *)
Inductive Signal : Type :=
| onDone
| onErr (err : error).

Section Methods.
Context {S : Type}.
Variable pick : Scheduler.
Variable dt : DependencyTrack S.

(** UploadBOM, the [for { select { ... } }] of the goroutine. The ticker
    ticks every [SBOMUploadCheckInterval] on its own schedule; after a
    tick is received at [wake] the next one is the first instant of the
    schedule after [wake]. *)
Fixpoint pollLoop (fuel : nat) (ctx : context.Context) (uploadToken : EventToken)
    (nextTick : Z) (w : World S) : Outcome Signal * World S :=
  match fuel with
  | O => (Unfinished, w)
  | Datatypes.S fuel' =>
      let (c, wake) := select pick ctx (SBOMUploadTimeout dt) (now w) nextTick in
      let w1 := at_time wake w in
      match c with
      | caseTick =>
          let (r, w2) := Event_IsBeingProcessed (Client dt) ctx uploadToken w1 in
          match r with
          | Fail err => (Returned (onErr err), w2)
          | Ok processing =>
              if negb processing then (Returned onDone, w2)
              else
                let interval := SBOMUploadCheckInterval dt in
                pollLoop fuel' ctx uploadToken
                  (nextTick + ((wake - nextTick) / interval + 1) * interval) w2
          end
      | caseTimeout => (Returned (onErr (errorString "timeout exceeded")), w1)
      | caseDone => (Returned (onErr (context.cause ctx)), w1)
      end
  end.

(** UploadBOM, the goroutine: [time.NewTicker] panics on a non-positive
    interval; the first tick is one interval after the ticker is made. *)
Definition pollTask (fuel : nat) (ctx : context.Context) (uploadToken : EventToken)
    (w : World S) : Outcome Signal * World S :=
  let interval := SBOMUploadCheckInterval dt in
  if interval <=? 0 then (Panicked "non-positive interval for NewTicker", w)
  else pollLoop fuel ctx uploadToken (now w + interval) w.

(** UploadBOM, the final [select] of the caller on the two channels. *)
Definition awaitPoll (o : Outcome Signal) : Outcome (option error) :=
  match o with
  | Returned onDone => Returned None
  | Returned (onErr err) => Returned (Some err)
  | Panicked msg => Panicked msg
  | Unfinished => Unfinished
  end.

(** UploadBOM, the project literal handed to [Project.Create]: name,
    version and [Active]; every other field has its zero value. *)
Definition newProject (projectName projectVersion : string) : Project := {|
  UUID := ""; Name := projectName; Version := projectVersion;
  Group := ""; Description := ""; Active := true;
  LastBOMImport := 0; Tags := []
|}.

(** UploadBOM, the request literal handed to [BOM.Upload]. *)
Definition uploadRequest (project : Project)
    (projectVersion parentName parentVersion : string) (bom : list byte)
    (isLatest : bool) : BOMUploadRequest := {|
  ProjectUUID := Some (UUID project);
  ProjectName := "";
  ProjectVersion := projectVersion;
  ParentName := parentName;
  ParentVersion := parentVersion;
  AutoCreate := true;
  BOM := base64.EncodeToString bom;
  IsLatest := Some isLatest
|}.

(** UploadBOM, "Ensure project exists": lookup, and on failure create
    and look up again. The [project] declared inside the [if] block, which
    holds the literal and then the answer of the second lookup, is another
    variable than the [project] of the first lookup; the rest of the
    function reads the latter, which after a create still holds what the
    failed lookup returned. *)
Definition ensureProject (ctx : context.Context) (projectName projectVersion : string)
    (w : World S) : result Project * World S :=
  let (r, w1) := Project_Lookup (Client dt) ctx projectName projectVersion w in
  match r with
  | Ok project => (Ok project, w1)
  | Fail _ =>
      let outer :=
        Project_Lookup_onError (Client dt) ctx projectName projectVersion w in
      let project := newProject projectName projectVersion in
      let (r2, w2) := Project_Create (Client dt) ctx project w1 in
      match r2 with
      | Fail err => (Fail err, w2)
      | Ok _ =>
          let (r3, w3) :=
            Project_Lookup (Client dt) ctx projectName projectVersion w2 in
          match r3 with
          | Fail err => (Fail err, w3)
          | Ok _ => (Ok outer, w3)
          end
      end
  end.

Definition UploadBOM (fuel : nat) (ctx : context.Context)
    (projectName projectVersion parentName parentVersion : string)
    (bom : list byte) (isLatest : bool) (namespace serviceName : string)
    (w : World S) : Outcome (option error) * World S :=
  let (r, w1) := ensureProject ctx projectName projectVersion w in
  match r with
  | Fail err => (Returned (Some err), w1)
  | Ok project =>
      let (r2, w2) :=
        BOM_Upload (Client dt) ctx
          (uploadRequest project projectVersion parentName parentVersion bom isLatest)
          w1 in
      match r2 with
      | Fail err => (Returned (Some err), w2)
      | Ok uploadToken =>
          let (o, w3) := pollTask fuel ctx uploadToken w2 in
          (awaitPoll o, w3)
      end
  end.

Definition IsLatest (ctx : context.Context) (projectName projectVersion : string)
    (updateTimestamp : Z) (w : World S) : bool * World S :=
  let (r, w1) := Project_Lookup (Client dt) ctx projectName projectVersion w in
  match r with
  | Fail _ => (true, w1)
  | Ok project => (int64 (LastBOMImport project) <? updateTimestamp, w1)
  end.

Definition appendTag (project : Project) (tag : string) : Project := {|
  UUID := UUID project; Name := Name project; Version := Version project;
  Group := Group project; Description := Description project;
  Active := Active project; LastBOMImport := LastBOMImport project;
  Tags := Tags project ++ [{| TagName := tag |}]
|}.

Definition AddTagsToProject (ctx : context.Context)
    (projectName projectVersion : string) (tags : list string)
    (namespace serviceName : string) (w : World S) : option error * World S :=
  let (r, w1) := Project_Lookup (Client dt) ctx projectName projectVersion w in
  match r with
  | Fail err => (Some err, w1)
  | Ok project =>
      let project := fold_left appendTag tags project in
      let (r2, w2) := Project_Update (Client dt) ctx project w1 in
      match r2 with
      | Fail err => (Some err, w2)
      | Ok _ => (None, w2)
      end
  end.

End Methods.

(** [project] with [tags] appended, in order, to the tags it has. *)
Definition tagged (project : Project) (tags : list string) : Project := {|
  UUID := UUID project; Name := Name project; Version := Version project;
  Group := Group project; Description := Description project;
  Active := Active project; LastBOMImport := LastBOMImport project;
  Tags := Tags project ++ map (fun t => {| TagName := t |}) tags
|}.

(** A wrapper whose REST client is observed through [recording]. *)
Definition observed {S : Type} (c : dtrack.Client S) (timeout interval : Z)
    : DependencyTrack (S * Journal) := {|
  Client := recording c;
  SBOMUploadTimeout := timeout;
  SBOMUploadCheckInterval := interval
|}.

End DependencyTrack.

(** ** Packages of the repository that [Run] calls into

    [sbomreport], [template] and [config] are used by [Run] through the
    functions below; their bodies are taken as given. *)

Module sbomreport.

Record API : Type := {
  SBOMReport : Type;
  Mapping : Type;                              (* map[string]interface{} *)
  New : list byte -> result SBOMReport;
  IsErrNotSBOMReport : error -> bool;
  Verb : SBOMReport -> string;
  ToMap : SBOMReport -> result Mapping;
  BOM : SBOMReport -> list byte;
  UpdateTimestamp : SBOMReport -> string
}.

(** Modelled from the spec: the body of [ISVerbUpdate] is not among the
    sources; an update-type report is one whose declared verb is
    "update". *)
Definition ISVerbUpdate (api : API) (sbom : SBOMReport api) : bool :=
  String.eqb (Verb api sbom) "update".

End sbomreport.

Module tmpl.

(** [tmpl.New(m).Render(expr)]: a function of the mapping and the
    expression. *)
Definition Render (M : Type) : Type := M -> string -> result string.

End tmpl.

Module config.

(** The fields of [config.Config] read by [Run]. *)
Record Config : Type := {
  ProjectName : string;
  ProjectVersion : string;
  ProjectTags : list string;
  ParentName : string;
  ParentVersion : string
}.

End config.

(** ** package uploader *)

Module uploader.
Import DependencyTrackClient.

Record Upload (W : Type) : Type := {
  dtrack : DependencyTrackClient W;
  config : config.Config;
  latestTimestamps : list (string * string)
}.
Arguments dtrack {W} u.
Arguments config {W} u.
Arguments latestTimestamps {W} u.

(** [x, err := e; if err != nil { return err }] inside a method whose
    world is still [w]. *)
Notation "'try' x '<-' e 'in' w ; k" :=
  (match e with
   | Ok x => k
   | Fail err => (Some err, w)
   end)
  (at level 10, x name, e at level 100, w at level 0, k at level 200,
   only parsing).

Section Run.
Variable api : sbomreport.API.
Variable render : tmpl.Render (sbomreport.Mapping api).
Context {W : Type}.

(** Run, the loop over [u.config.ProjectTags]. *)
Fixpoint renderTags (sbomMap : sbomreport.Mapping api) (tags : list string)
    (projectTags : list string) : result (list string) :=
  match tags with
  | [] => Ok projectTags
  | tag :: rest =>
      match render sbomMap tag with
      | Fail err => Fail err
      | Ok t => renderTags sbomMap rest (projectTags ++ [t])
      end
  end.

(** Run, from [strconv.ParseInt] to the call of [IsLatest]: the flag
    is true unless the timestamp parses, and then it is what [IsLatest]
    answers. *)
Definition arbitrate (u : Upload W) (ctx : context.Context)
    (sbom : sbomreport.SBOMReport api) (projectName projectVersion : string)
    (w : W) : bool * W :=
  match strconv.ParseInt10 (sbomreport.UpdateTimestamp api sbom) 64 with
  | Ok incomingTS =>
      IsLatest (dtrack u) ctx projectName projectVersion incomingTS w
  | Fail _ => (true, w)
  end.

Definition Run (u : Upload W) (ctx : context.Context) (input : list byte)
    (w : W) : option error * W :=
  match sbomreport.New api input with
  | Fail err =>
      if sbomreport.IsErrNotSBOMReport api err then (None, w) else (Some err, w)
  | Ok sbom =>
      if negb (sbomreport.ISVerbUpdate api sbom)
      then (Some (errorString "only support verb is update"), w)
      else
        try sbomMap <- sbomreport.ToMap api sbom in w;
        try projectName <- render sbomMap (config.ProjectName (config u)) in w;
        try projectVersion <- render sbomMap (config.ProjectVersion (config u)) in w;
        try projectTags <- renderTags sbomMap (config.ProjectTags (config u)) [] in w;
        try parentName <- render sbomMap (config.ParentName (config u)) in w;
        try parentVersion <- render sbomMap (config.ParentVersion (config u)) in w;
        let (isLatest, w1) := arbitrate u ctx sbom projectName projectVersion w in
        let (e, w2) :=
          UploadBOM (dtrack u) ctx projectName projectVersion parentName
            parentVersion (sbomreport.BOM api sbom) isLatest "" "" w1 in
        match e with
        | Some err => (Some err, w2)
        | None =>
            if (0 <? List.length projectTags)%nat then
              let (e3, w3) :=
                AddTagsToProject (dtrack u) ctx projectName projectVersion
                  projectTags "" "" w2 in
              match e3 with
              | Some err => (Some err, w3)
              | None => (None, w3)
              end
            else (None, w2)
        end
  end.

End Run.

(** The calls [arbitrate] makes: one to [IsLatest] when the timestamp
    parses, none otherwise. *)
Definition arbiterCalls (api : sbomreport.API) (sbom : sbomreport.SBOMReport api)
    (projectName projectVersion : string) : list Call :=
  match strconv.ParseInt10 (sbomreport.UpdateTimestamp api sbom) 64 with
  | Ok incomingTS => [CallIsLatest projectName projectVersion incomingTS]
  | Fail _ => []
  end.

(** An uploader whose tracker is observed through [spy]. *)
Definition spied {W : Type} (d : DependencyTrackClient W) (cfg : config.Config)
    (stamps : list (string * string)) : Upload (W * list Call) := {|
  dtrack := spy d;
  config := cfg;
  latestTimestamps := stamps
|}.

End uploader.

(** ** Test doubles

    A scripted tracking service and a small report package, on which the
    methods are run on concrete inputs. *)

Module Fake.
Import dtrack.

Record Service : Type := {
  store : list Project;              (* the projects the service holds *)
  racer : option Project;            (* created by another caller while our create is in flight *)
  updateErr : option error;          (* the answer to an update, when it is to fail *)
  uploadErr : option error;          (* the answer to a BOM upload, when it is to fail *)
  polls : list (result bool * Z)     (* the answers to is-being-processed, each with the time it takes *)
}.

Definition matches (name version : string) (p : Project) : bool :=
  String.eqb (Name p) name && String.eqb (Version p) version.

Definition Lookup (ctx : context.Context) (name version : string)
    (w : World Service) : result Project * World Service :=
  match find (matches name version) (store (srv w)) with
  | Some p => (Ok p, w)
  | None => (Fail (ServiceError "404 project not found"), w)
  end.

Definition withStore (s : Service) (l : list Project) : Service := {|
  store := l; racer := None; updateErr := updateErr s;
  uploadErr := uploadErr s; polls := polls s
|}.

Definition Create (ctx : context.Context) (p : Project)
    (w : World Service) : result Project * World Service :=
  match racer (srv w) with
  | Some q =>
      (Fail (ServiceError "409 project already exists"),
       mkWorld (withStore (srv w) (store (srv w) ++ [q])) (now w))
  | None =>
      let p' := {|
        UUID := "uuid-of-" ++ Name p; Name := Name p; Version := Version p;
        Group := Group p; Description := Description p; Active := Active p;
        LastBOMImport := LastBOMImport p; Tags := Tags p
      |} in
      (Ok p', mkWorld (withStore (srv w) (store (srv w) ++ [p'])) (now w))
  end.

Definition Update (ctx : context.Context) (p : Project)
    (w : World Service) : result Project * World Service :=
  match updateErr (srv w) with
  | Some e => (Fail e, w)
  | None =>
      let l := map (fun q => if String.eqb (UUID q) (UUID p) then p else q)
                   (store (srv w)) in
      (Ok p, mkWorld {| store := l; racer := racer (srv w);
                        updateErr := None; uploadErr := uploadErr (srv w);
                        polls := polls (srv w) |} (now w))
  end.

Definition Upload (ctx : context.Context) (r : BOMUploadRequest)
    (w : World Service) : result EventToken * World Service :=
  match uploadErr (srv w) with
  | Some e => (Fail e, w)
  | None => (Ok "token-1", w)
  end.

(** Answers are taken from the script; once it is used up the service
    keeps reporting that the token is being processed, at once. *)
Definition IsBeingProcessed (ctx : context.Context) (token : EventToken)
    (w : World Service) : result bool * World Service :=
  match polls (srv w) with
  | [] => (Ok true, w)
  | (r, took) :: rest =>
      (r, mkWorld {| store := store (srv w); racer := racer (srv w);
                     updateErr := updateErr (srv w);
                     uploadErr := uploadErr (srv w); polls := rest |}
            (now w + took))
  end.

(** With an error [Lookup] returns the zero [Project]. *)
Definition nothing : Project := {|
  UUID := ""; Name := ""; Version := ""; Group := ""; Description := "";
  Active := false; LastBOMImport := 0; Tags := []
|}.

Definition client : Client Service := {|
  Project_Lookup := Lookup;
  Project_Lookup_onError := fun _ _ _ _ => nothing;
  Project_Create := Create;
  Project_Update := Update;
  BOM_Upload := Upload;
  Event_IsBeingProcessed := IsBeingProcessed
|}.

Definition empty : Service := {|
  store := []; racer := None; updateErr := None; uploadErr := None; polls := []
|}.

Definition second : Z := 1000000000.

(** A wrapper with the intervals of the command's defaults in mind: a
    check every second, thirty seconds of timeout. *)
Definition tracker (c : Client Service) : DependencyTrack.DependencyTrack Service := {|
  DependencyTrack.Client := c;
  DependencyTrack.SBOMUploadTimeout := 30 * second;
  DependencyTrack.SBOMUploadCheckInterval := 1 * second
|}.

Definition recorded : DependencyTrack.DependencyTrack (Service * Journal) :=
  DependencyTrack.observed client (30 * second) (1 * second).

(** A scheduler that takes the first ready communication in source
    order, and one that takes the last. *)
Definition firstReady : DependencyTrack.Scheduler := fun _ _ => O.
Definition lastReady : DependencyTrack.Scheduler :=
  fun _ ready => Nat.pred (List.length ready).

Definition start (s : Service) : World (Service * Journal) := mkWorld (s, []) 0.

Definition myproj (lastImport : Z) (tags : list Tag) : Project := {|
  UUID := "uuid-of-myproj"; Name := "myproj"; Version := "v1";
  Group := ""; Description := ""; Active := true;
  LastBOMImport := lastImport; Tags := tags
|}.

End Fake.

Module FakeReport.

Record Report : Type := {
  verb : string;
  timestamp : string;
  payload : list byte
}.

Definition ErrNotSBOMReport : error := errorString "not sbom report".

(** The first byte of the input tells what the document is. *)
Definition New (input : list byte) : result Report :=
  match input with
  | [] => Fail ErrNotSBOMReport
  | x01 :: bom => Ok {| verb := "update"; timestamp := "1700000000"; payload := bom |}
  | x02 :: bom => Ok {| verb := "create"; timestamp := "1700000000"; payload := bom |}
  | x03 :: bom => Ok {| verb := "update"; timestamp := "n/a"; payload := bom |}
  | _ => Fail (errorString "unexpected end of JSON input")
  end.

Definition Mapping : Type := list (string * string).

Definition api : sbomreport.API := {|
  sbomreport.SBOMReport := Report;
  sbomreport.Mapping := Mapping;
  sbomreport.New := New;
  sbomreport.IsErrNotSBOMReport := fun e => error_eqb e ErrNotSBOMReport;
  sbomreport.Verb := verb;
  sbomreport.ToMap := fun _ => Ok [("name", "myproj"); ("version", "v1"); ("kind", "Pod")];
  sbomreport.BOM := payload;
  sbomreport.UpdateTimestamp := timestamp
|}.

(** An expression is a key of the mapping; the empty expression renders
    to the empty string. *)
Definition render : tmpl.Render Mapping := fun m expr =>
  if String.eqb expr "" then Ok ""
  else
    match find (fun kv => String.eqb (fst kv) expr) m with
    | Some kv => Ok (snd kv)
    | None => Fail (errorString "template: no such key")
    end.

Definition cfg (tags : list string) : config.Config := {|
  config.ProjectName := "name";
  config.ProjectVersion := "version";
  config.ProjectTags := tags;
  config.ParentName := "";
  config.ParentVersion := ""
|}.

End FakeReport.

Module FakeRun.
Import DependencyTrackClient.

(** The wrapper as a [DependencyTrackClient], for runs whose poll loop
    returns within [fuel] selects; a run that does not is reported by the
    double as an error of its own. *)
Definition bounded {S : Type} (pick : DependencyTrack.Scheduler) (fuel : nat)
    (dt : DependencyTrack.DependencyTrack S) : DependencyTrackClient (World S) := {|
  UploadBOM ctx pn pv parn parv bom isLatest ns svc w :=
    match DependencyTrack.UploadBOM pick dt fuel ctx pn pv parn parv bom isLatest ns svc w with
    | (Returned e, w') => (e, w')
    | (_, w') => (Some (errorString "test double: poll loop did not return"), w')
    end;
  AddTagsToProject := DependencyTrack.AddTagsToProject dt;
  IsLatest := DependencyTrack.IsLatest dt
|}.

Definition Run (tags : list string) (input : list byte) (s : Fake.Service) :=
  uploader.Run FakeReport.api FakeReport.render
    (uploader.spied (bounded Fake.firstReady 8 Fake.recorded) (FakeReport.cfg tags) [])
    context.Background input (Fake.start s, []).

Definition done (s : Fake.Service) : Fake.Service := {|
  Fake.store := Fake.store s; Fake.racer := Fake.racer s;
  Fake.updateErr := Fake.updateErr s; Fake.uploadErr := Fake.uploadErr s;
  Fake.polls := [(Ok false, 0)]
|}.

End FakeRun.

(** ** Kinds of requests *)

Module Requests.
Import dtrack.

Definition isLookup (q : Z * Request) : bool :=
  match snd q with ReqLookup _ _ => true | _ => false end.
Definition isCreate (q : Z * Request) : bool :=
  match snd q with ReqCreate _ => true | _ => false end.
Definition isUpdate (q : Z * Request) : bool :=
  match snd q with ReqUpdate _ => true | _ => false end.
Definition isUpload (q : Z * Request) : bool :=
  match snd q with ReqUpload _ => true | _ => false end.
Definition isCheck (q : Z * Request) : bool :=
  match snd q with ReqIsBeingProcessed _ => true | _ => false end.

(** How many requests of a kind a journal holds. *)
Definition count (kind : Z * Request -> bool) (j : Journal) : nat :=
  List.length (filter kind j).

End Requests.

(** ** package dependencytrack, the earlier variant of [IsLatest]

    In this variant the timestamp is an RFC 3339 string and the record
    compared with is the latest version of the project, whatever its
    version. A [time.Time] is the instant it denotes, in nanoseconds since
    the Unix epoch; [time.Parse] and [Project.Latest] are taken as given. *)

Module Legacy.
Import dtrack.

(** [time.UnixMilli(msec)]. *)
Definition UnixMilli (msec : Z) : Z := msec * 1000000.

(** [t.After(u)]. *)
Definition After (t u : Z) : bool := u <? t.

(** An error made by [fmt.Errorf] with a [%w] verb: the text before the
    verb and the error wrapped. *)
Inductive wrapError : Type :=
| Errorf_w (text : string) (err : error).

Section IsLatest.
Context {S : Type}.
Variable Parse_RFC3339 : string -> result Z.
Variable Project_Latest :
  context.Context -> string -> World S -> result Project * World S.

Definition IsLatest (ctx : context.Context) (projectName projectVersion : string)
    (creationTimestamp : string) (w : World S) : (bool * option wrapError) * World S :=
  match Parse_RFC3339 creationTimestamp with
  | Fail err => ((false, Some (Errorf_w "invalid creationTimestamp: " err)), w)
  | Ok ts =>
      let (r, w1) := Project_Latest ctx projectName w in
      match r with
      | Fail _ => ((true, None), w1)
      | Ok project =>
          if String.eqb (Version project) projectVersion then ((true, None), w1)
          else
            let latestBOMTime := UnixMilli (int64 (LastBOMImport project)) in
            if After ts latestBOMTime then ((true, None), w1)
            else ((false, None), w1)
      end
  end.

End IsLatest.

End Legacy.

Module FakeLegacy.
Import dtrack.

(** Two timestamps the double can read, an hour apart. *)
Definition Parse (s : string) : result Z :=
  if String.eqb s "2023-11-14T22:13:20Z" then Ok 1700000000000000000
  else if String.eqb s "2023-11-14T23:13:20Z" then Ok 1700003600000000000
  else Fail (errorString "parsing time: cannot parse as RFC 3339").

(** The latest version of a project is the last one stored under its
    name. *)
Definition Latest (ctx : context.Context) (name : string) (w : World Fake.Service)
    : result Project * World Fake.Service :=
  match find (fun p => String.eqb (Name p) name) (rev (Fake.store (srv w))) with
  | Some p => (Ok p, w)
  | None => (Fail (ServiceError "404 project not found"), w)
  end.

Definition holding (l : list Project) : World Fake.Service :=
  mkWorld {| Fake.store := l; Fake.racer := None; Fake.updateErr := None;
             Fake.uploadErr := None; Fake.polls := [] |} 0.

Definition v2 (lastImport : Z) : Project := {|
  UUID := "uuid-of-myproj-v2"; Name := "myproj"; Version := "v2";
  Group := ""; Description := ""; Active := true;
  LastBOMImport := lastImport; Tags := []
|}.

End FakeLegacy.

(** ** What the calls of a run carry *)

Module Resolved.
Import DependencyTrackClient.

(** A call carries the resolved fields of a report when its project name
    and version are what the templates of the configuration render to on
    the report's mapping, and so are the other arguments taken from the
    report: parent name, parent version and BOM for [UploadBOM]; the tag
    templates, rendered one by one in their order and at least one, for
    [AddTagsToProject]; the report's timestamp, parsed and within [int64],
    for [IsLatest]. The trailing two string arguments are empty. *)
Definition carried (api : sbomreport.API) (render : tmpl.Render (sbomreport.Mapping api))
    (cfg : config.Config) (sbom : sbomreport.SBOMReport api)
    (sbomMap : sbomreport.Mapping api) (call : Call) : Prop :=
  let rendersTo := fun template text : string => render sbomMap template = Ok text in
  match call with
  | CallIsLatest pn pv ts =>
      rendersTo (config.ProjectName cfg) pn
      /\ rendersTo (config.ProjectVersion cfg) pv
      /\ strconv.ParseInt10 (sbomreport.UpdateTimestamp api sbom) 64 = Ok ts
      /\ is_int64 ts
  | CallUploadBOM pn pv parn parv bom _ g desc =>
      rendersTo (config.ProjectName cfg) pn
      /\ rendersTo (config.ProjectVersion cfg) pv
      /\ rendersTo (config.ParentName cfg) parn
      /\ rendersTo (config.ParentVersion cfg) parv
      /\ bom = sbomreport.BOM api sbom
      /\ g = "" /\ desc = ""
  | CallAddTagsToProject pn pv tags ns svc =>
      rendersTo (config.ProjectName cfg) pn
      /\ rendersTo (config.ProjectVersion cfg) pv
      /\ Forall2 rendersTo (config.ProjectTags cfg) tags
      /\ tags <> []
      /\ ns = "" /\ svc = ""
  end.

End Resolved.

(** * Properties *)

(** ** The library functions on examples *)

Example ParseInt_ex1 : strconv.ParseInt10 "1700000000" 64 = Ok 1700000000.
Proof. reflexivity. Qed.
Example ParseInt_ex2 : strconv.ParseInt10 "-9223372036854775808" 64 = Ok int64_min.
Proof. reflexivity. Qed.
Example ParseInt_ex3 :
  strconv.ParseInt10 "9223372036854775808" 64 = Fail (NumError "9223372036854775808" true).
Proof. reflexivity. Qed.
Example ParseInt_ex4 : strconv.ParseInt10 "" 64 = Fail (NumError "" false).
Proof. reflexivity. Qed.
Example ParseInt_ex5 : strconv.ParseInt10 "+" 64 = Fail (NumError "+" false).
Proof. reflexivity. Qed.
Example ParseInt_ex6 : strconv.ParseInt10 "12a" 64 = Fail (NumError "12a" false).
Proof. reflexivity. Qed.
Example base64_ex1 : base64.EncodeToString [x4d; x61; x6e] = "TWFu".
Proof. reflexivity. Qed.
Example base64_ex2 : base64.EncodeToString [x4d; x61] = "TWE=".
Proof. reflexivity. Qed.
Example base64_ex3 : base64.EncodeToString [x4d] = "TQ==".
Proof. reflexivity. Qed.

Lemma digit_range (c : ascii) (d : Z) : strconv.digit c = Some d -> 0 <= d <= 9.
Proof.
  unfold strconv.digit.
  destruct (Z.leb_spec 48 (Z.of_nat (nat_of_ascii c))) as [Hlo | Hlo];
    destruct (Z.leb_spec (Z.of_nat (nat_of_ascii c)) 57) as [Hhi | Hhi]; cbn;
    intros E; inversion E; lia.
Qed.

Lemma uint_digits_range (s0 s : string) :
  forall n v, 0 <= n <= uint64_max -> strconv.uint_digits s0 s n = Ok v ->
              0 <= v <= uint64_max.
Proof.
  induction s as [| c rest IH]; intros n v Hn; cbn [strconv.uint_digits].
  - intros E. inversion E. now subst.
  - destruct (strconv.digit c) as [d |] eqn:Hd; [| discriminate].
    apply digit_range in Hd.
    destruct (Z.ltb_spec uint64_max (n * 10 + d)) as [Hover | Hfits];
      cbv iota; [discriminate |].
    apply IH. lia.
Qed.

(** What [ParseInt(s, 10, 64)] returns without an error is an [int64]. *)
Lemma ParseInt10_int64 (s : string) (n : Z) :
  strconv.ParseInt10 s 64 = Ok n -> is_int64 n.
Proof.
  unfold strconv.ParseInt10. destruct s as [| c rest]; [discriminate |].
  destruct (strconv.ParseUint10 (String c rest)
              (if (Ascii.eqb c "+" || Ascii.eqb c "-")%bool then rest else String c rest))
    as [un | e] eqn:Hun; [| discriminate].
  assert (Hrange : 0 <= un <= uint64_max).
  { unfold strconv.ParseUint10 in Hun.
    destruct (if (Ascii.eqb c "+" || Ascii.eqb c "-")%bool then rest else String c rest);
      [discriminate |].
    apply (uint_digits_range _ _ 0 un) in Hun; [exact Hun |].
    unfold uint64_max. lia. }
  change (2 ^ (64 - 1)) with 9223372036854775808.
  unfold is_int64, int64_min, int64_max.
  change (2 ^ 63) with 9223372036854775808.
  destruct (Ascii.eqb c "-"); cbn [negb andb].
  - destruct (Z.ltb_spec 9223372036854775808 un) as [Hover | Hfits];
      cbv iota; [discriminate |].
    intros E. inversion E. lia.
  - destruct (Z.leb_spec 9223372036854775808 un) as [Hover | Hfits];
      cbv iota; [discriminate |].
    intros E. inversion E. lia.
Qed.

(** ** The Latest-Version Arbiter *)

Lemma int64_exact (x : Z) : is_int64 x -> int64 x = x.
Proof.
  unfold is_int64, int64, int64_min, int64_max. intros H.
  rewrite Z.mod_small; lia.
Qed.

Section Arbiter.
Context {S : Type}.
Variable dt : DependencyTrack.DependencyTrack S.
Variable ctx : context.Context.
Variables projectName projectVersion : string.

(** C1. When the lookup of the project version succeeds, [IsLatest]
    answers true exactly when the record's [LastBOMImport] is strictly
    less than the incoming timestamp; on equal timestamps it answers
    false. ([LastBOMImport] is a Go [int], so it is in the range of
    [int64].) *)
Theorem IsLatest_strictly_older
    (updateTimestamp : Z) (project : dtrack.Project) (w w1 : World S) :
  dtrack.Project_Lookup (DependencyTrack.Client dt) ctx projectName projectVersion w
    = (Ok project, w1) ->
  is_int64 (dtrack.LastBOMImport project) ->
  (fst (DependencyTrack.IsLatest dt ctx projectName projectVersion updateTimestamp w) = true
     <-> dtrack.LastBOMImport project < updateTimestamp)
  /\ (dtrack.LastBOMImport project = updateTimestamp ->
      fst (DependencyTrack.IsLatest dt ctx projectName projectVersion updateTimestamp w) = false)
  /\ snd (DependencyTrack.IsLatest dt ctx projectName projectVersion updateTimestamp w) = w1.
Proof.
  intros Hlookup Hint. unfold DependencyTrack.IsLatest.
  rewrite Hlookup. cbn [fst snd]. rewrite (int64_exact _ Hint).
  repeat split.
  - apply Z.ltb_lt.
  - apply Z.ltb_lt.
  - intros ->. apply Z.ltb_irrefl.
Qed.

(** C5. When the lookup of the project version fails, [IsLatest] answers
    true whatever the incoming timestamp. *)
Theorem IsLatest_unseen_project
    (updateTimestamp : Z) (err : error) (w w1 : World S) :
  dtrack.Project_Lookup (DependencyTrack.Client dt) ctx projectName projectVersion w
    = (Fail err, w1) ->
  DependencyTrack.IsLatest dt ctx projectName projectVersion updateTimestamp w = (true, w1).
Proof.
  intros Hlookup. unfold DependencyTrack.IsLatest. now rewrite Hlookup.
Qed.

End Arbiter.

Lemma IsLatest_strictly_older_witness :
  let w := mkWorld
    {| Fake.store := [Fake.myproj 100 []]; Fake.racer := None;
       Fake.updateErr := None; Fake.uploadErr := None; Fake.polls := [] |} 0 in
  (fst (DependencyTrack.IsLatest (Fake.tracker Fake.client) context.Background
          "myproj" "v1" 101 w) = true <-> 100 < 101)
  /\ (100 = 101 ->
      fst (DependencyTrack.IsLatest (Fake.tracker Fake.client) context.Background
          "myproj" "v1" 101 w) = false)
  /\ snd (DependencyTrack.IsLatest (Fake.tracker Fake.client) context.Background
          "myproj" "v1" 101 w) = w.
Proof.
  intro w.
  apply (IsLatest_strictly_older (Fake.tracker Fake.client) context.Background
           "myproj" "v1" 101 (Fake.myproj 100 []) w w).
  - reflexivity.
  - unfold is_int64, int64_min, int64_max. simpl. lia.
Defined.

Lemma IsLatest_unseen_project_witness :
  DependencyTrack.IsLatest (Fake.tracker Fake.client) context.Background
    "myproj" "v1" (-5) (mkWorld Fake.empty 0) = (true, mkWorld Fake.empty 0).
Proof.
  apply (IsLatest_unseen_project (Fake.tracker Fake.client) context.Background
           "myproj" "v1" (-5) (ServiceError "404 project not found")).
  reflexivity.
Defined.

(** ** The Tag Applier *)

Lemma fold_appendTag (tags : list string) :
  forall project, fold_left DependencyTrack.appendTag tags project = DependencyTrack.tagged project tags.
Proof.
  induction tags as [| tag tags IH]; intros project.
  - destruct project. unfold DependencyTrack.tagged. cbn. now rewrite app_nil_r.
  - cbn [fold_left]. rewrite IH. unfold DependencyTrack.tagged, DependencyTrack.appendTag. cbn.
    now rewrite <- app_assoc.
Qed.

Section TagApplier.
Context {S : Type}.
Variable c : dtrack.Client S.
Variables timeout interval : Z.
Variable ctx : context.Context.
Variables projectName projectVersion namespace serviceName : string.
Variable tags : list string.

Local Abbreviation dt := (DependencyTrack.observed c timeout interval).

(** When the lookup succeeds the looked-up project goes to the update
    with the tags appended, and the answer to the update decides. *)
Lemma AddTagsToProject_found (w : World (S * dtrack.Journal))
    (project : dtrack.Project) (w1 : World S) :
  dtrack.Project_Lookup c ctx projectName projectVersion (dtrack.inner w)
    = (Ok project, w1) ->
  let answer := dtrack.Project_Update c ctx (DependencyTrack.tagged project tags) w1 in
  let out := DependencyTrack.AddTagsToProject dt ctx projectName projectVersion
               tags namespace serviceName w in
  fst out = match fst answer with Ok _ => None | Fail err => Some err end
  /\ dtrack.inner (snd out) = snd answer
  /\ dtrack.journal (snd out)
     = dtrack.journal w
       ++ [(now w, dtrack.ReqLookup projectName projectVersion);
           (now w1, dtrack.ReqUpdate (DependencyTrack.tagged project tags))].
Proof.
  intros Hlookup answer out. subst answer out. destruct w1 as [s1 t1].
  unfold DependencyTrack.AddTagsToProject. cbn.
  unfold dtrack.note, dtrack.inner, dtrack.journal in *. cbn in *.
  rewrite Hlookup. cbn. rewrite fold_appendTag.
  destruct (dtrack.Project_Update c ctx (DependencyTrack.tagged project tags) (mkWorld s1 t1))
    as [[p' | err] [s2 t2]];
    cbn; (repeat split; try reflexivity; now rewrite <- app_assoc).
Qed.

(** When the lookup fails its error is returned and no update is sent. *)
Lemma AddTagsToProject_missing (w : World (S * dtrack.Journal))
    (err : error) (w1 : World S) :
  dtrack.Project_Lookup c ctx projectName projectVersion (dtrack.inner w)
    = (Fail err, w1) ->
  let out := DependencyTrack.AddTagsToProject dt ctx projectName projectVersion
               tags namespace serviceName w in
  fst out = Some err
  /\ dtrack.inner (snd out) = w1
  /\ dtrack.journal (snd out)
     = dtrack.journal w ++ [(now w, dtrack.ReqLookup projectName projectVersion)].
Proof.
  intros Hlookup out. subst out. destruct w1 as [s1 t1].
  unfold DependencyTrack.AddTagsToProject. cbn.
  unfold dtrack.note, dtrack.inner, dtrack.journal in *. cbn in *.
  rewrite Hlookup. cbn. repeat split.
Qed.

(** Whatever the service answers, the tag step sends lookups and updates
    only. *)
Lemma AddTagsToProject_requests (w : World (S * dtrack.Journal)) :
  exists sent,
    dtrack.journal
      (snd (DependencyTrack.AddTagsToProject dt ctx projectName projectVersion
              tags namespace serviceName w))
    = dtrack.journal w ++ sent
    /\ Forall dtrack.lookupOrUpdate sent.
Proof.
  destruct (dtrack.Project_Lookup c ctx projectName projectVersion (dtrack.inner w))
    as [[project | err] w1] eqn:Hlookup.
  - destruct (AddTagsToProject_found w project w1 Hlookup) as (_ & _ & Hj).
    eexists. split; [exact Hj |].
    repeat constructor.
  - destruct (AddTagsToProject_missing w err w1 Hlookup) as (_ & _ & Hj).
    eexists. split; [exact Hj |].
    repeat constructor.
Qed.

End TagApplier.

(** ** The Run Coordinator *)

Section Coordinator.
Variable api : sbomreport.API.
Variable render : tmpl.Render (sbomreport.Mapping api).
Context {W : Type}.
Variable d : DependencyTrackClient.DependencyTrackClient W.
Variable stamps : list (string * string).
Variable ctx : context.Context.

Local Abbreviation plain cfg :=
  {| uploader.dtrack := d; uploader.config := cfg; uploader.latestTimestamps := stamps |}.
Local Abbreviation run cfg := (uploader.Run api render (uploader.spied d cfg stamps) ctx).
Local Abbreviation calls out := (snd (snd out)).

(** C8. An input whose parse fails with the "not an SBOM report" condition
    makes [Run] return nil without any further step; any other parse
    failure is returned as it is. In both cases nothing is called on the
    tracker. *)
Theorem Run_parse_failure (cfg : config.Config) (input : list byte) (err : error) (w : W) :
  sbomreport.New api input = Fail err ->
  run cfg input (w, [])
    = (if sbomreport.IsErrNotSBOMReport api err then None else Some err, (w, [])).
Proof.
  intros Hnew. unfold uploader.Run. rewrite Hnew.
  now destruct (sbomreport.IsErrNotSBOMReport api err).
Qed.

(** C7. A report that parses but whose verb is not "update" makes [Run]
    return the unsupported-verb error, and none of [IsLatest], [UploadBOM],
    [AddTagsToProject] is called. *)
Theorem Run_verb_not_update (cfg : config.Config)
    (input : list byte) (sbom : sbomreport.SBOMReport api) (w : W) :
  sbomreport.New api input = Ok sbom ->
  sbomreport.Verb api sbom <> "update" ->
  run cfg input (w, [])
    = (Some (errorString "only support verb is update"), (w, [])).
Proof.
  intros Hnew Hverb. unfold uploader.Run. rewrite Hnew.
  unfold sbomreport.ISVerbUpdate.
  destruct (String.eqb_spec (sbomreport.Verb api sbom) "update") as [E | _].
  - contradiction.
  - reflexivity.
Qed.

Lemma arbitrate_spied (cfg : config.Config) (sbom : sbomreport.SBOMReport api)
    (projectName projectVersion : string) (w : W)
    (l : list DependencyTrackClient.Call) :
  uploader.arbitrate api (uploader.spied d cfg stamps) ctx sbom projectName projectVersion (w, l)
  = (fst (uploader.arbitrate api (plain cfg) ctx sbom projectName projectVersion w),
     (snd (uploader.arbitrate api (plain cfg) ctx sbom projectName projectVersion w),
      l ++ uploader.arbiterCalls api sbom projectName projectVersion)).
Proof.
  unfold uploader.arbitrate, uploader.arbiterCalls.
  destruct (strconv.ParseInt10 (sbomreport.UpdateTimestamp api sbom) 64) as [ts | e]; cbn.
  - now destruct (DependencyTrackClient.IsLatest d ctx projectName projectVersion ts w).
  - now rewrite app_nil_r.
Qed.

(** The resolved tags are the tag templates of the configuration,
    rendered one by one in their order. *)
Lemma renderTags_in_order (sbomMap : sbomreport.Mapping api) (tags : list string) :
  forall acc resolved,
    uploader.renderTags api render sbomMap tags acc = Ok resolved ->
    exists rendered,
      resolved = acc ++ rendered
      /\ Forall2 (fun tag t => render sbomMap tag = Ok t) tags rendered.
Proof.
  induction tags as [| tag rest IH]; intros acc resolved; cbn.
  - intros E. inversion E. exists []. split; [now rewrite app_nil_r | constructor].
  - destruct (render sbomMap tag) as [t | e] eqn:Ht; [| discriminate].
    intros E. destruct (IH _ _ E) as (rendered & -> & Hall).
    exists (t :: rendered). split; [now rewrite <- app_assoc | now constructor].
Qed.

(** With an empty resolved tag list no call of [AddTagsToProject] is made,
    wherever the run ends. *)
Lemma Run_no_tags (cfg : config.Config) (input : list byte)
    (sbom : sbomreport.SBOMReport api)
    (sbomMap : sbomreport.Mapping api) (w : W) :
  sbomreport.New api input = Ok sbom ->
  sbomreport.ToMap api sbom = Ok sbomMap ->
  uploader.renderTags api render sbomMap (config.ProjectTags cfg) [] = Ok [] ->
  filter DependencyTrackClient.isAddTags (calls (run cfg input (w, []))) = [].
Proof.
  intros Hnew Hmap Htags. unfold uploader.Run. rewrite Hnew.
  destruct (negb (sbomreport.ISVerbUpdate api sbom)); [reflexivity |].
  rewrite Hmap. cbn [uploader.config uploader.spied].
  destruct (render sbomMap (config.ProjectName cfg)) as [pn | e]; [| reflexivity].
  destruct (render sbomMap (config.ProjectVersion cfg)) as [pv | e]; [| reflexivity].
  rewrite Htags.
  destruct (render sbomMap (config.ParentName cfg)) as [parn | e]; [| reflexivity].
  destruct (render sbomMap (config.ParentVersion cfg)) as [parv | e]; [| reflexivity].
  rewrite arbitrate_spied. unfold uploader.arbiterCalls. cbn.
  destruct (uploader.arbitrate api (plain cfg) ctx sbom pn pv w) as [b w1]. cbn.
  destruct (DependencyTrackClient.UploadBOM d ctx pn pv parn parv
              (sbomreport.BOM api sbom) b "" "" w1) as [[e |] w2]; cbn;
    destruct (strconv.ParseInt10 (sbomreport.UpdateTimestamp api sbom) 64);
    reflexivity.
Qed.

(** Observing the tracker changes neither what [Run] returns nor the world
    it leaves. *)
Lemma Run_spied_transparent (cfg : config.Config) (input : list byte) (w : W)
    (l : list DependencyTrackClient.Call) :
  fst (run cfg input (w, l)) = fst (uploader.Run api render (plain cfg) ctx input w)
  /\ fst (snd (run cfg input (w, l)))
     = snd (uploader.Run api render (plain cfg) ctx input w).
Proof.
  unfold uploader.Run.
  destruct (sbomreport.New api input) as [sbom | e];
    [| now destruct (sbomreport.IsErrNotSBOMReport api e)].
  destruct (negb (sbomreport.ISVerbUpdate api sbom)); [now split |].
  destruct (sbomreport.ToMap api sbom) as [sbomMap | e]; [| now split].
  cbn [uploader.config uploader.spied uploader.dtrack].
  destruct (render sbomMap (config.ProjectName cfg)) as [pn | e]; [| now split].
  destruct (render sbomMap (config.ProjectVersion cfg)) as [pv | e]; [| now split].
  destruct (uploader.renderTags api render sbomMap (config.ProjectTags cfg) [])
    as [tags | e]; [| now split].
  destruct (render sbomMap (config.ParentName cfg)) as [parn | e]; [| now split].
  destruct (render sbomMap (config.ParentVersion cfg)) as [parv | e]; [| now split].
  rewrite arbitrate_spied.
  destruct (uploader.arbitrate api (plain cfg) ctx sbom pn pv w) as [b w1].
  cbn [fst snd DependencyTrackClient.spy DependencyTrackClient.UploadBOM
         DependencyTrackClient.AddTagsToProject].
  destruct (DependencyTrackClient.UploadBOM d ctx pn pv parn parv
              (sbomreport.BOM api sbom) b "" "" w1) as [[e |] w2]; [now split |].
  destruct (0 <? List.length tags)%nat; [| now split].
  cbn [fst snd].
  now destruct (DependencyTrackClient.AddTagsToProject d ctx pn pv tags "" "" w2)
    as [[e |] w3].
Qed.

Section Resolved.
Variable cfg : config.Config.
Variable input : list byte.
Variable sbom : sbomreport.SBOMReport api.
Variable sbomMap : sbomreport.Mapping api.
Variables projectName projectVersion parentName parentVersion : string.
Variable projectTags : list string.
Hypothesis Hnew : sbomreport.New api input = Ok sbom.
Hypothesis Hverb : sbomreport.Verb api sbom = "update".
Hypothesis Hmap : sbomreport.ToMap api sbom = Ok sbomMap.
Hypothesis Hname : render sbomMap (config.ProjectName cfg) = Ok projectName.
Hypothesis Hversion : render sbomMap (config.ProjectVersion cfg) = Ok projectVersion.
Hypothesis Htags :
  uploader.renderTags api render sbomMap (config.ProjectTags cfg) [] = Ok projectTags.
Hypothesis HparentName : render sbomMap (config.ParentName cfg) = Ok parentName.
Hypothesis HparentVersion : render sbomMap (config.ParentVersion cfg) = Ok parentVersion.

Local Abbreviation upload isLatest :=
  (DependencyTrackClient.CallUploadBOM projectName projectVersion parentName
     parentVersion (sbomreport.BOM api sbom) isLatest "" "").
Local Abbreviation addTags :=
  (DependencyTrackClient.CallAddTagsToProject projectName projectVersion projectTags "" "").

(** Once the report is read and every template rendered, [Run] is the
    sequence arbitrate, upload, tag. *)
Lemma Run_resolved {V : Type} (u : uploader.Upload V) (v : V) :
  uploader.config u = cfg ->
  uploader.Run api render u ctx input v
  = let (isLatest, v1) := uploader.arbitrate api u ctx sbom projectName projectVersion v in
    let (e, v2) :=
      DependencyTrackClient.UploadBOM (uploader.dtrack u) ctx projectName projectVersion
        parentName parentVersion (sbomreport.BOM api sbom) isLatest "" "" v1 in
    match e with
    | Some err => (Some err, v2)
    | None =>
        match projectTags with
        | [] => (None, v2)
        | _ :: _ =>
            let (e3, v3) :=
              DependencyTrackClient.AddTagsToProject (uploader.dtrack u) ctx projectName
                projectVersion projectTags "" "" v2 in
            (e3, v3)
        end
    end.
Proof.
  intros Hcfg. unfold uploader.Run. rewrite Hnew.
  unfold sbomreport.ISVerbUpdate. rewrite Hverb. cbn [String.eqb Ascii.eqb Bool.eqb negb].
  rewrite Hcfg, Hmap, Hname, Hversion, Htags, HparentName, HparentVersion.
  destruct (uploader.arbitrate api u ctx sbom projectName projectVersion v) as [b v1].
  destruct (DependencyTrackClient.UploadBOM (uploader.dtrack u) ctx projectName
              projectVersion parentName parentVersion (sbomreport.BOM api sbom) b "" "" v1)
    as [[e |] v2]; [reflexivity |].
  destruct projectTags as [| t ts]; [reflexivity |]. cbn [List.length Nat.ltb Nat.leb].
  now destruct (DependencyTrackClient.AddTagsToProject (uploader.dtrack u) ctx projectName
                  projectVersion (t :: ts) "" "" v2) as [[e |] v3].
Qed.

(** The run seen through the spy: the calls, in order, and the worlds
    they thread. *)
Lemma Run_spied (w : W) :
  let a := uploader.arbitrate api (plain cfg) ctx sbom projectName projectVersion w in
  let up := DependencyTrackClient.UploadBOM d ctx projectName projectVersion parentName
              parentVersion (sbomreport.BOM api sbom) (fst a) "" "" (snd a) in
  let tag := DependencyTrackClient.AddTagsToProject d ctx projectName projectVersion
               projectTags "" "" (snd up) in
  run cfg input (w, [])
  = match fst up, projectTags with
    | Some err, _ =>
        (Some err, (snd up, uploader.arbiterCalls api sbom projectName projectVersion
                            ++ [upload (fst a)]))
    | None, [] =>
        (None, (snd up, uploader.arbiterCalls api sbom projectName projectVersion
                        ++ [upload (fst a)]))
    | None, _ :: _ =>
        (fst tag, (snd tag, uploader.arbiterCalls api sbom projectName projectVersion
                            ++ [upload (fst a); addTags]))
    end.
Proof.
  intros a up tag. subst a up tag.
  rewrite (Run_resolved (uploader.spied d cfg stamps) (w, []) eq_refl).
  rewrite arbitrate_spied. cbn.
  destruct (uploader.arbitrate api (plain cfg) ctx sbom projectName projectVersion w) as [b w1].
  cbn.
  destruct (DependencyTrackClient.UploadBOM d ctx projectName projectVersion parentName
              parentVersion (sbomreport.BOM api sbom) b "" "" w1) as [[e |] w2]; cbn;
    [reflexivity |].
  destruct projectTags as [| t ts]; [reflexivity |]. cbn.
  destruct (DependencyTrackClient.AddTagsToProject d ctx projectName projectVersion
              (t :: ts) "" "" w2) as [e3 w3]. cbn.
  now rewrite <- app_assoc.
Qed.

Lemma arbiterCalls_only_IsLatest :
  filter DependencyTrackClient.isUploadBOM
    (uploader.arbiterCalls api sbom projectName projectVersion) = []
  /\ filter DependencyTrackClient.isAddTags
       (uploader.arbiterCalls api sbom projectName projectVersion) = [].
Proof.
  unfold uploader.arbiterCalls.
  now destruct (strconv.ParseInt10 (sbomreport.UpdateTimestamp api sbom) 64).
Qed.

(** C4. When the report's [UpdateTimestamp] does not parse as a base-10
    64-bit integer, [IsLatest] is not called at all and [UploadBOM] gets
    [isLatest = true]; when it parses, [IsLatest] is called once, first,
    with the resolved name and version and the parsed timestamp, and
    [UploadBOM] gets exactly what it answered. *)
Theorem Run_isLatest_flag (w : W) :
  match strconv.ParseInt10 (sbomreport.UpdateTimestamp api sbom) 64 with
  | Fail _ =>
      filter DependencyTrackClient.isIsLatest (calls (run cfg input (w, []))) = []
      /\ exists rest, calls (run cfg input (w, [])) = upload true :: rest
  | Ok incomingTS =>
      exists rest,
        calls (run cfg input (w, []))
        = DependencyTrackClient.CallIsLatest projectName projectVersion incomingTS
          :: upload (fst (DependencyTrackClient.IsLatest d ctx projectName
                            projectVersion incomingTS w))
          :: rest
        /\ filter DependencyTrackClient.isIsLatest rest = []
  end.
Proof.
  rewrite Run_spied. unfold uploader.arbitrate, uploader.arbiterCalls.
  destruct (strconv.ParseInt10 (sbomreport.UpdateTimestamp api sbom) 64) as [ts | e].
  - cbn [uploader.dtrack].
    destruct (DependencyTrackClient.IsLatest d ctx projectName projectVersion ts w)
      as [b w1]. cbn [fst snd].
    destruct (DependencyTrackClient.UploadBOM d ctx projectName projectVersion parentName
                parentVersion (sbomreport.BOM api sbom) b "" "" w1) as [[e |] w2];
      cbn [fst snd]; [| destruct projectTags]; eexists; split; reflexivity.
  - cbn [fst snd].
    destruct (DependencyTrackClient.UploadBOM d ctx projectName projectVersion parentName
                parentVersion (sbomreport.BOM api sbom) true "" "" w) as [[e' |] w2];
      cbn [fst snd]; [| destruct projectTags]; (split; [reflexivity | eexists; reflexivity]).
Qed.

(** C9. With an empty resolved tag list [Run] makes no call of
    [AddTagsToProject]. With a non-empty one and a successful upload it
    makes exactly one, with the resolved name, version and tags; and
    [AddTagsToProject], having looked the project up, sends it to the
    update with these tags appended in order (duplicates kept) to the tags
    it had, and sends nothing else. *)
Theorem Run_tags_applied (w : W) :
  let a := uploader.arbitrate api (plain cfg) ctx sbom projectName projectVersion w in
  let up := DependencyTrackClient.UploadBOM d ctx projectName projectVersion parentName
              parentVersion (sbomreport.BOM api sbom) (fst a) "" "" (snd a) in
  (forall cfg' input' sbom' sbomMap' w',
     sbomreport.New api input' = Ok sbom' ->
     sbomreport.ToMap api sbom' = Ok sbomMap' ->
     uploader.renderTags api render sbomMap' (config.ProjectTags cfg') [] = Ok [] ->
     filter DependencyTrackClient.isAddTags (calls (run cfg' input' (w', []))) = [])
  /\ (projectTags <> [] -> fst up = None ->
      filter DependencyTrackClient.isAddTags (calls (run cfg input (w, []))) = [addTags])
  /\ (forall (S : Type) (c : dtrack.Client S) (timeout interval : Z)
        (namespace serviceName : string) (v : World (S * dtrack.Journal))
        (project : dtrack.Project) (v1 : World S),
        dtrack.Project_Lookup c ctx projectName projectVersion (dtrack.inner v)
          = (Ok project, v1) ->
        dtrack.journal
          (snd (DependencyTrack.AddTagsToProject
                  (DependencyTrack.observed c timeout interval) ctx projectName
                  projectVersion projectTags namespace serviceName v))
        = dtrack.journal v
          ++ [(now v, dtrack.ReqLookup projectName projectVersion);
              (now v1, dtrack.ReqUpdate (DependencyTrack.tagged project projectTags))]
        /\ dtrack.Tags (DependencyTrack.tagged project projectTags)
           = dtrack.Tags project
             ++ map (fun t => {| dtrack.TagName := t |}) projectTags).
Proof.
  intros a up. split; [| split].
  - intros cfg' input' sbom' sbomMap' w'. apply Run_no_tags.
  - intros Hne Hup. rewrite Run_spied. fold a. fold up. rewrite Hup.
    destruct projectTags as [| t ts]; [contradiction |]. cbn [snd].
    rewrite filter_app.
    destruct arbiterCalls_only_IsLatest as [_ ->]. reflexivity.
  - intros S c timeout interval namespace serviceName v project v1 Hlookup.
    split; [| reflexivity].
    now destruct (AddTagsToProject_found c timeout interval ctx projectName projectVersion
                    namespace serviceName projectTags v project v1 Hlookup) as (_ & _ & Hj).
Qed.

(** C10. When [UploadBOM] has succeeded and [AddTagsToProject] then fails,
    [Run] returns the error of [AddTagsToProject] as it is. [UploadBOM] has
    been called once, before; nothing is called after the failed tag step,
    so the world [Run] leaves is the one the upload made, as the tag step
    left it. The tag step itself sends lookups and updates only. *)
Theorem Run_tag_failure_keeps_upload (w : W) (err : error) :
  let a := uploader.arbitrate api (plain cfg) ctx sbom projectName projectVersion w in
  let up := DependencyTrackClient.UploadBOM d ctx projectName projectVersion parentName
              parentVersion (sbomreport.BOM api sbom) (fst a) "" "" (snd a) in
  let tag := DependencyTrackClient.AddTagsToProject d ctx projectName projectVersion
               projectTags "" "" (snd up) in
  fst up = None ->
  projectTags <> [] ->
  fst tag = Some err ->
  (exists before,
     run cfg input (w, []) = (Some err, (snd tag, before ++ [upload (fst a); addTags]))
     /\ filter DependencyTrackClient.isUploadBOM before = []
     /\ filter DependencyTrackClient.isAddTags before = [])
  /\ (forall (S : Type) (c : dtrack.Client S) (timeout interval : Z)
        (namespace serviceName : string) (v : World (S * dtrack.Journal)),
        exists sent,
          dtrack.journal
            (snd (DependencyTrack.AddTagsToProject
                    (DependencyTrack.observed c timeout interval) ctx projectName
                    projectVersion projectTags namespace serviceName v))
          = dtrack.journal v ++ sent
          /\ Forall dtrack.lookupOrUpdate sent).
Proof.
  intros a up tag Hup Hne Htag. split.
  - exists (uploader.arbiterCalls api sbom projectName projectVersion).
    split; [| exact arbiterCalls_only_IsLatest].
    rewrite Run_spied. fold a. fold up. fold tag. rewrite Hup, Htag.
    destruct projectTags; [contradiction | reflexivity].
  - intros S c timeout interval namespace serviceName v.
    apply AddTagsToProject_requests.
Qed.

End Resolved.
End Coordinator.

(** ** The select of the poll loop *)

Section Select.
Variable pick : DependencyTrack.Scheduler.
Variable ctx : context.Context.
Variables timeout t nextTick : Z.

Lemma only_ready (c : DependencyTrack.SelectCase) (wake : Z) :
  nth (Nat.modulo (pick wake [c]) (List.length [c])) [c] DependencyTrack.caseTimeout = c.
Proof.
  cbn [List.length]. now rewrite Nat.mod_1_r.
Qed.

(** The tick is taken when it is due strictly before the timer of this
    iteration and strictly before the context is done. *)
Lemma select_tick :
  Z.max t nextTick < t + Z.max 0 timeout ->
  match context.done_at ctx with
  | Some d => Z.max t nextTick < Z.max t d
  | None => True
  end ->
  DependencyTrack.select pick ctx timeout t nextTick
    = (DependencyTrack.caseTick, Z.max t nextTick).
Proof.
  intros Hto Hdone. unfold DependencyTrack.select, DependencyTrack.arms, DependencyTrack.earliest.
  destruct (context.done_at ctx) as [d |]; cbn [fold_right snd fst app].
  - replace (Z.min (Z.max t nextTick)
               (Z.min (t + Z.max 0 timeout) (Z.min (Z.max t d) (t + Z.max 0 timeout))))
      with (Z.max t nextTick) by lia.
    cbn [filter snd]. rewrite Z.eqb_refl.
    destruct (Z.eqb_spec (t + Z.max 0 timeout) (Z.max t nextTick)); [lia |].
    destruct (Z.eqb_spec (Z.max t d) (Z.max t nextTick)); [lia |].
    cbn [map fst]. now rewrite only_ready.
  - replace (Z.min (Z.max t nextTick) (Z.min (t + Z.max 0 timeout) (t + Z.max 0 timeout)))
      with (Z.max t nextTick) by lia.
    cbn [filter snd]. rewrite Z.eqb_refl.
    destruct (Z.eqb_spec (t + Z.max 0 timeout) (Z.max t nextTick)); [lia |].
    cbn [map fst]. now rewrite only_ready.
Qed.

(** The end of the context is taken when it comes strictly before the
    next tick and strictly before the timer of this iteration. *)
Lemma select_done (d : Z) :
  context.done_at ctx = Some d ->
  Z.max t d < Z.max t nextTick ->
  Z.max t d < t + Z.max 0 timeout ->
  DependencyTrack.select pick ctx timeout t nextTick
    = (DependencyTrack.caseDone, Z.max t d).
Proof.
  intros Hd Htick Hto.
  unfold DependencyTrack.select, DependencyTrack.arms, DependencyTrack.earliest.
  rewrite Hd. cbn [fold_right snd fst app].
  replace (Z.min (Z.max t nextTick)
             (Z.min (t + Z.max 0 timeout) (Z.min (Z.max t d) (t + Z.max 0 timeout))))
    with (Z.max t d) by lia.
  cbn [filter snd]. rewrite Z.eqb_refl.
  destruct (Z.eqb_spec (Z.max t nextTick) (Z.max t d)); [lia |].
  destruct (Z.eqb_spec (t + Z.max 0 timeout) (Z.max t d)); [lia |].
  cbn [map fst]. now rewrite only_ready.
Qed.

(** The timer of this iteration is taken when it runs out strictly before
    the next tick and strictly before the context is done. *)
Lemma select_timeout :
  t + Z.max 0 timeout < Z.max t nextTick ->
  match context.done_at ctx with
  | Some d => t + Z.max 0 timeout < Z.max t d
  | None => True
  end ->
  DependencyTrack.select pick ctx timeout t nextTick
    = (DependencyTrack.caseTimeout, t + Z.max 0 timeout).
Proof.
  intros Htick Hdone.
  unfold DependencyTrack.select, DependencyTrack.arms, DependencyTrack.earliest.
  destruct (context.done_at ctx) as [d |]; cbn [fold_right snd fst app].
  - replace (Z.min (Z.max t nextTick)
               (Z.min (t + Z.max 0 timeout) (Z.min (Z.max t d) (t + Z.max 0 timeout))))
      with (t + Z.max 0 timeout) by lia.
    cbn [filter snd]. rewrite Z.eqb_refl.
    destruct (Z.eqb_spec (Z.max t nextTick) (t + Z.max 0 timeout)); [lia |].
    destruct (Z.eqb_spec (Z.max t d) (t + Z.max 0 timeout)); [lia |].
    cbn [map fst]. now rewrite only_ready.
  - replace (Z.min (Z.max t nextTick) (Z.min (t + Z.max 0 timeout) (t + Z.max 0 timeout)))
      with (t + Z.max 0 timeout) by lia.
    cbn [filter snd]. rewrite Z.eqb_refl.
    destruct (Z.eqb_spec (Z.max t nextTick) (t + Z.max 0 timeout)); [lia |].
    cbn [map fst]. now rewrite only_ready.
Qed.

End Select.

(** ** The poll loop *)

Lemma journal_at_time {S : Type} (t : Z) (w : World (S * dtrack.Journal)) :
  dtrack.journal (at_time t w) = dtrack.journal w.
Proof. reflexivity. Qed.

Section PollObserved.
Context {S : Type}.
Variable pick : DependencyTrack.Scheduler.
Variable c : dtrack.Client S.
Variables timeout interval : Z.
Variable ctx : context.Context.
Variable uploadToken : dtrack.EventToken.

Local Abbreviation dt := (DependencyTrack.observed c timeout interval).



(** *** The timer of the loop is armed anew in every iteration

    With a check interval shorter than the timeout, a context that is
    never done and a service that keeps answering "being processed", the
    tick wins every select: the loop is still running after any number of
    iterations, has sent a check in each, and the clock has advanced by an
    interval for each. *)
Hypothesis Hinterval : 0 < interval < timeout.
Hypothesis Hbackground : context.done_at ctx = None.
Variable busy : World S -> Prop.
Hypothesis Hprocessing :
  forall w : World S, busy w ->
    fst (dtrack.Event_IsBeingProcessed c ctx uploadToken w) = Ok true
    /\ now w <= now (snd (dtrack.Event_IsBeingProcessed c ctx uploadToken w))
    /\ busy (snd (dtrack.Event_IsBeingProcessed c ctx uploadToken w)).
Hypothesis Hwait : forall (w : World S) (t : Z), busy w -> busy (at_time t w).

Lemma pollLoop_keeps_ticking (fuel : nat) :
  forall nextTick (w : World (S * dtrack.Journal)),
  busy (dtrack.inner w) ->
  nextTick <= now w + interval ->
  let out := DependencyTrack.pollLoop pick dt fuel ctx uploadToken nextTick w in
  fst out = Unfinished
  /\ List.length (dtrack.journal (snd out)) = (List.length (dtrack.journal w) + fuel)%nat
  /\ nextTick + Z.of_nat fuel * interval <= now (snd out) + interval.
Proof.
  induction fuel as [| fuel IH]; intros nextTick w Hbusy Hnext out; subst out.
  - cbn. repeat split; [lia | lia].
  - cbn [DependencyTrack.pollLoop].
    cbn [DependencyTrack.SBOMUploadTimeout DependencyTrack.SBOMUploadCheckInterval
           DependencyTrack.observed].
    rewrite select_tick; [| lia | now rewrite Hbackground].
    cbn [DependencyTrack.Client DependencyTrack.observed dtrack.recording
           dtrack.Event_IsBeingProcessed].
    unfold dtrack.note.
    destruct (Hprocessing (dtrack.inner (at_time (Z.max (now w) nextTick) w)))
      as (Hanswer & Hclock & Hbusy'); [exact (Hwait _ _ Hbusy) |].
    destruct (dtrack.Event_IsBeingProcessed c ctx uploadToken
                (dtrack.inner (at_time (Z.max (now w) nextTick) w))) as [r w2].
    cbn [fst snd] in *. subst r. cbn [negb].
    cbn [dtrack.inner at_time now] in Hclock.
    set (wake := Z.max (now w) nextTick) in *.
    assert (Hwake : nextTick <= wake) by (subst wake; lia).
    assert (Hq : 0 <= (wake - nextTick) / interval) by (apply Z.div_pos; lia).
    assert (Hm : interval * ((wake - nextTick) / interval) <= wake - nextTick)
      by (apply Z.mul_div_le; lia).
    set (q := (wake - nextTick) / interval) in *.
    match goal with
    | |- context [DependencyTrack.pollLoop _ _ _ _ _ _ ?v] =>
        destruct (IH (nextTick + (q + 1) * interval) v) as (Hrun & Hlen & Htime)
    end.
    { now destruct w2. }
    { cbn. nia. }
    rewrite Hrun, Hlen. cbn [dtrack.journal srv snd at_time now] in *.
    repeat split.
    + rewrite length_app, journal_at_time. cbn [List.length]. lia.
    + nia.
Qed.

End PollObserved.

(** ** The Upload Orchestrator *)

Section Orchestrator.
Context {S : Type}.
Variable pick : DependencyTrack.Scheduler.
Variable dt : DependencyTrack.DependencyTrack S.
Variable ctx : context.Context.
Variables projectName projectVersion parentName parentVersion : string.
Variable bom : list byte.
Variable isLatest : bool.
Variables namespace serviceName : string.

Local Abbreviation UploadBOM fuel :=
  (DependencyTrack.UploadBOM pick dt fuel ctx projectName projectVersion parentName
     parentVersion bom isLatest namespace serviceName).
Local Abbreviation request project :=
  (DependencyTrack.uploadRequest project projectVersion parentName parentVersion bom isLatest).

(** With the project in hand and the BOM accepted, [UploadBOM] is the
    poll on the token. *)
Lemma UploadBOM_polls (fuel : nat) (w w1 w2 : World S) (project : dtrack.Project)
    (uploadToken : dtrack.EventToken) :
  DependencyTrack.ensureProject dt ctx projectName projectVersion w = (Ok project, w1) ->
  dtrack.BOM_Upload (DependencyTrack.Client dt) ctx (request project) w1
    = (Ok uploadToken, w2) ->
  UploadBOM fuel w
  = (DependencyTrack.awaitPoll (fst (DependencyTrack.pollTask pick dt fuel ctx uploadToken w2)),
     snd (DependencyTrack.pollTask pick dt fuel ctx uploadToken w2)).
Proof.
  intros Hensure Hupload. unfold DependencyTrack.UploadBOM.
  rewrite Hensure, Hupload.
  now destruct (DependencyTrack.pollTask pick dt fuel ctx uploadToken w2).
Qed.

(** The timeout does end the poll when it is shorter than the check
    interval: the timer armed by the first select runs out before the first
    tick. *)
Lemma pollTask_timeout_before_first_tick (fuel : nat)
    (uploadToken : dtrack.EventToken) (w : World S) :
  context.done_at ctx = None ->
  0 < DependencyTrack.SBOMUploadCheckInterval dt ->
  DependencyTrack.SBOMUploadTimeout dt < DependencyTrack.SBOMUploadCheckInterval dt ->
  DependencyTrack.pollTask pick dt (Datatypes.S fuel) ctx uploadToken w
  = (Returned (DependencyTrack.onErr (errorString "timeout exceeded")),
     at_time (now w + Z.max 0 (DependencyTrack.SBOMUploadTimeout dt)) w).
Proof.
  intros Hnever Hinterval Hshort. unfold DependencyTrack.pollTask.
  destruct (Z.leb_spec (DependencyTrack.SBOMUploadCheckInterval dt) 0); [lia |].
  cbn [DependencyTrack.pollLoop].
  rewrite select_timeout; [reflexivity | lia | now rewrite Hnever].
Qed.

(** C6, as the code has it. At a select of the poll loop at which no tick
    is due by the time the context is done, and the timeout of that
    iteration has not run out by then, the loop returns the context's error
    at that instant, without a call on the service. In particular, when the
    context is done before the first tick (and before the timeout),
    [UploadBOM] returns the context's error without waiting for the check
    interval to elapse. *)
Theorem UploadBOM_cancelled_before_tick (fuel : nat) (d : Z) :
  context.done_at ctx = Some d ->
  0 < DependencyTrack.SBOMUploadCheckInterval dt ->
  0 < DependencyTrack.SBOMUploadTimeout dt ->
  (forall (uploadToken : dtrack.EventToken) (nextTick : Z) (w : World S),
     Z.max (now w) d < nextTick ->
     d < now w + DependencyTrack.SBOMUploadTimeout dt ->
     DependencyTrack.pollLoop pick dt (Datatypes.S fuel) ctx uploadToken nextTick w
     = (Returned (DependencyTrack.onErr (context.cause ctx)), at_time (Z.max (now w) d) w))
  /\ (forall (w w1 w2 : World S) (project : dtrack.Project)
        (uploadToken : dtrack.EventToken),
        DependencyTrack.ensureProject dt ctx projectName projectVersion w = (Ok project, w1) ->
        dtrack.BOM_Upload (DependencyTrack.Client dt) ctx (request project) w1
          = (Ok uploadToken, w2) ->
        d < now w2 + DependencyTrack.SBOMUploadCheckInterval dt ->
        d < now w2 + DependencyTrack.SBOMUploadTimeout dt ->
        UploadBOM (Datatypes.S fuel) w
        = (Returned (Some (context.cause ctx)), at_time (Z.max (now w2) d) w2)
        /\ Z.max (now w2) d < now w2 + DependencyTrack.SBOMUploadCheckInterval dt).
Proof.
  intros Hd Hinterval Htimeout.
  assert (Hloop : forall uploadToken nextTick (w : World S),
             Z.max (now w) d < nextTick ->
             d < now w + DependencyTrack.SBOMUploadTimeout dt ->
             DependencyTrack.pollLoop pick dt (Datatypes.S fuel) ctx uploadToken nextTick w
             = (Returned (DependencyTrack.onErr (context.cause ctx)),
                at_time (Z.max (now w) d) w)).
  { intros uploadToken nextTick w Htick Hto. cbn [DependencyTrack.pollLoop].
    rewrite (select_done pick ctx _ _ _ d Hd); [reflexivity | lia | lia]. }
  split; [exact Hloop |].
  intros w w1 w2 project uploadToken Hensure Hupload Hfirst Hto.
  rewrite (UploadBOM_polls _ w w1 w2 project uploadToken Hensure Hupload).
  unfold DependencyTrack.pollTask.
  destruct (Z.leb_spec (DependencyTrack.SBOMUploadCheckInterval dt) 0); [lia |].
  rewrite Hloop; [| lia | lia]. cbn. split; [reflexivity | lia].
Qed.

End Orchestrator.

Lemma inner_mkWorld {S : Type} (s : S) (j : dtrack.Journal) (t : Z) :
  dtrack.inner (mkWorld (s, j) t) = mkWorld s t.
Proof. reflexivity. Qed.

Section EnsureProject.
Context {S : Type}.
Variable pick : DependencyTrack.Scheduler.
Variable c : dtrack.Client S.
Variables timeout interval : Z.
Variable ctx : context.Context.
Variables projectName projectVersion parentName parentVersion : string.
Variable bom : list byte.
Variable isLatest : bool.
Variables namespace serviceName : string.

Local Abbreviation dt := (DependencyTrack.observed c timeout interval).
Local Abbreviation UploadBOM fuel :=
  (DependencyTrack.UploadBOM pick dt fuel ctx projectName projectVersion parentName
     parentVersion bom isLatest namespace serviceName).
Local Abbreviation request project :=
  (DependencyTrack.uploadRequest project projectVersion parentName parentVersion bom isLatest).
Local Abbreviation fresh := (DependencyTrack.newProject projectName projectVersion).
Local Abbreviation look t := (t, dtrack.ReqLookup projectName projectVersion).




End EnsureProject.

(** ** The properties on the test doubles *)

Lemma Run_parse_failure_witness :
  FakeRun.Run [] [] Fake.empty = (None, (Fake.start Fake.empty, []))
  /\ FakeRun.Run [] [xff] Fake.empty
     = (Some (errorString "unexpected end of JSON input"), (Fake.start Fake.empty, [])).
Proof.
  split.
  - apply (Run_parse_failure FakeReport.api FakeReport.render
             (FakeRun.bounded Fake.firstReady 8 Fake.recorded) [] context.Background
             (FakeReport.cfg []) [] FakeReport.ErrNotSBOMReport).
    reflexivity.
  - apply (Run_parse_failure FakeReport.api FakeReport.render
             (FakeRun.bounded Fake.firstReady 8 Fake.recorded) [] context.Background
             (FakeReport.cfg []) [xff] (errorString "unexpected end of JSON input")).
    reflexivity.
Defined.

Lemma Run_verb_not_update_witness :
  FakeRun.Run ["kind"] [x02; x4d] Fake.empty
  = (Some (errorString "only support verb is update"), (Fake.start Fake.empty, [])).
Proof.
  apply (Run_verb_not_update FakeReport.api FakeReport.render
           (FakeRun.bounded Fake.firstReady 8 Fake.recorded) [] context.Background
           (FakeReport.cfg ["kind"]) [x02; x4d]
           {| FakeReport.verb := "create"; FakeReport.timestamp := "1700000000";
              FakeReport.payload := [x4d] |}).
  - reflexivity.
  - discriminate.
Defined.

Lemma Run_isLatest_flag_witness :
  (exists rest,
     snd (snd (FakeRun.Run [] [x01; x4d] (FakeRun.done Fake.empty)))
     = DependencyTrackClient.CallIsLatest "myproj" "v1" 1700000000
       :: DependencyTrackClient.CallUploadBOM "myproj" "v1" "" "" [x4d] true "" ""
       :: rest
     /\ filter DependencyTrackClient.isIsLatest rest = [])
  /\ (filter DependencyTrackClient.isIsLatest
        (snd (snd (FakeRun.Run [] [x03; x4d] (FakeRun.done Fake.empty)))) = []
      /\ exists rest,
           snd (snd (FakeRun.Run [] [x03; x4d] (FakeRun.done Fake.empty)))
           = DependencyTrackClient.CallUploadBOM "myproj" "v1" "" "" [x4d] true "" ""
             :: rest).
Proof.
  split.
  - exact (Run_isLatest_flag FakeReport.api FakeReport.render
             (FakeRun.bounded Fake.firstReady 8 Fake.recorded) [] context.Background
             (FakeReport.cfg []) [x01; x4d]
             {| FakeReport.verb := "update"; FakeReport.timestamp := "1700000000";
                FakeReport.payload := [x4d] |}
             [("name", "myproj"); ("version", "v1"); ("kind", "Pod")]
             "myproj" "v1" "" "" []
             eq_refl eq_refl eq_refl eq_refl eq_refl eq_refl eq_refl eq_refl
             (Fake.start (FakeRun.done Fake.empty))).
  - exact (Run_isLatest_flag FakeReport.api FakeReport.render
             (FakeRun.bounded Fake.firstReady 8 Fake.recorded) [] context.Background
             (FakeReport.cfg []) [x03; x4d]
             {| FakeReport.verb := "update"; FakeReport.timestamp := "n/a";
                FakeReport.payload := [x4d] |}
             [("name", "myproj"); ("version", "v1"); ("kind", "Pod")]
             "myproj" "v1" "" "" []
             eq_refl eq_refl eq_refl eq_refl eq_refl eq_refl eq_refl eq_refl
             (Fake.start (FakeRun.done Fake.empty))).
Defined.

Lemma Run_tags_applied_witness :
  filter DependencyTrackClient.isAddTags
    (snd (snd (FakeRun.Run [] [x01; x4d] (FakeRun.done Fake.empty)))) = []
  /\ filter DependencyTrackClient.isAddTags
       (snd (snd (FakeRun.Run ["kind"; "kind"] [x03; x4d] (FakeRun.done Fake.empty))))
     = [DependencyTrackClient.CallAddTagsToProject "myproj" "v1" ["Pod"; "Pod"] "" ""]
  /\ dtrack.journal
       (snd (DependencyTrack.AddTagsToProject Fake.recorded context.Background
               "myproj" "v1" ["Pod"; "Pod"] "" ""
               (Fake.start
                  {| Fake.store := [Fake.myproj 7 [{| dtrack.TagName := "Pod" |}]];
                     Fake.racer := None; Fake.updateErr := None;
                     Fake.uploadErr := None; Fake.polls := [] |})))
     = [(0, dtrack.ReqLookup "myproj" "v1");
        (0, dtrack.ReqUpdate
              (Fake.myproj 7 [{| dtrack.TagName := "Pod" |}; {| dtrack.TagName := "Pod" |};
                              {| dtrack.TagName := "Pod" |}]))].
Proof.
  destruct (Run_tags_applied FakeReport.api FakeReport.render
              (FakeRun.bounded Fake.firstReady 8 Fake.recorded) [] context.Background
              (FakeReport.cfg ["kind"; "kind"]) [x03; x4d]
              {| FakeReport.verb := "update"; FakeReport.timestamp := "n/a";
                 FakeReport.payload := [x4d] |}
              [("name", "myproj"); ("version", "v1"); ("kind", "Pod")]
              "myproj" "v1" "" "" ["Pod"; "Pod"]
              eq_refl eq_refl eq_refl eq_refl eq_refl eq_refl eq_refl eq_refl
              (Fake.start (FakeRun.done Fake.empty)))
    as (Hnone & Honce & Happend).
  split; [| split].
  - apply (Hnone (FakeReport.cfg []) [x01; x4d]
             {| FakeReport.verb := "update"; FakeReport.timestamp := "1700000000";
                FakeReport.payload := [x4d] |}
             [("name", "myproj"); ("version", "v1"); ("kind", "Pod")]);
      reflexivity.
  - apply Honce; [discriminate | reflexivity].
  - refine (proj1 (Happend Fake.Service Fake.client (30 * Fake.second) (1 * Fake.second)
                     "" ""
                     (Fake.start
                        {| Fake.store := [Fake.myproj 7 [{| dtrack.TagName := "Pod" |}]];
                           Fake.racer := None; Fake.updateErr := None;
                           Fake.uploadErr := None; Fake.polls := [] |})
                     (Fake.myproj 7 [{| dtrack.TagName := "Pod" |}]) _ eq_refl)).
Defined.

Lemma Run_tag_failure_keeps_upload_witness :
  let failing := {| Fake.store := []; Fake.racer := None;
                    Fake.updateErr := Some (ServiceError "500 update failed");
                    Fake.uploadErr := None; Fake.polls := [(Ok false, 0)] |} in
  fst (FakeRun.Run ["kind"] [x01; x4d] failing) = Some (ServiceError "500 update failed").
Proof.
  intro failing.
  destruct (Run_tag_failure_keeps_upload FakeReport.api FakeReport.render
              (FakeRun.bounded Fake.firstReady 8 Fake.recorded) [] context.Background
              (FakeReport.cfg ["kind"]) [x01; x4d]
              {| FakeReport.verb := "update"; FakeReport.timestamp := "1700000000";
                 FakeReport.payload := [x4d] |}
              [("name", "myproj"); ("version", "v1"); ("kind", "Pod")]
              "myproj" "v1" "" "" ["Pod"]
              eq_refl eq_refl eq_refl eq_refl eq_refl eq_refl eq_refl eq_refl
              (Fake.start failing) (ServiceError "500 update failed"))
    as [[before [Hrun _]] _].
  - reflexivity.
  - discriminate.
  - reflexivity.
  - unfold FakeRun.Run. now rewrite Hrun.
Defined.

(** C2. The timeout of the poll loop is not a single deadline from the
    start of the loop: [time.After] is evaluated anew in every iteration.
    With a check every second and a timeout of thirty, a service that keeps
    answering "being processed" and a context that is never done, the call
    is still polling after any number [n] of iterations, whatever the
    scheduler: it has sent [n] checks after the four requests that precede
    the loop, at least [n] seconds have passed, and no timeout error has
    been returned. *)
Theorem UploadBOM_timeout_never_fires (pick : DependencyTrack.Scheduler) (n : nat) :
  let out := DependencyTrack.UploadBOM pick Fake.recorded n context.Background
               "myproj" "v1" "" "" [x4d] true "" "" (Fake.start Fake.empty) in
  fst out = Unfinished
  /\ List.length (dtrack.journal (snd out)) = (4 + n)%nat
  /\ Z.of_nat n * Fake.second <= now (snd out).
Proof.
  intros out. subst out.
  pose (held := {| Fake.store := [Fake.myproj 0 []]; Fake.racer := None;
                   Fake.updateErr := None; Fake.uploadErr := None; Fake.polls := [] |}).
  pose (sent := [(0, dtrack.ReqLookup "myproj" "v1");
                 (0, dtrack.ReqCreate (DependencyTrack.newProject "myproj" "v1"));
                 (0, dtrack.ReqLookup "myproj" "v1")]).
  pose (w1 := mkWorld (held, sent) 0).
  pose (w2 := mkWorld
                (held,
                 sent ++ [(0, dtrack.ReqUpload
                                (DependencyTrack.uploadRequest Fake.nothing "v1" "" ""
                                   [x4d] true))]) 0).
  rewrite (UploadBOM_polls pick Fake.recorded context.Background "myproj" "v1" "" ""
             [x4d] true "" "" n (Fake.start Fake.empty) w1 w2 Fake.nothing "token-1"
             eq_refl eq_refl).
  assert (Hloop :
            DependencyTrack.pollTask pick Fake.recorded n context.Background "token-1" w2
            = DependencyTrack.pollLoop pick
                (DependencyTrack.observed Fake.client (30 * Fake.second) (1 * Fake.second))
                n context.Background "token-1" (now w2 + 1 * Fake.second) w2)
    by reflexivity.
  rewrite Hloop. clear Hloop.
  destruct (pollLoop_keeps_ticking pick Fake.client (30 * Fake.second) (1 * Fake.second)
              context.Background "token-1"
              ltac:(unfold Fake.second; lia) eq_refl
              (fun w => Fake.polls (srv w) = [])
              ltac:(intros w Hw; unfold Fake.client, Fake.IsBeingProcessed;
                    cbn; rewrite Hw; cbn; repeat split; [lia | exact Hw])
              ltac:(intros w t Hw; exact Hw)
              n (now w2 + 1 * Fake.second) w2 eq_refl ltac:(cbn; lia))
    as (Hrun & Hlen & Htime).
  cbn [fst snd]. rewrite Hrun, Hlen. cbn [DependencyTrack.awaitPoll].
  repeat split.
  change (now w2) with 0 in *. unfold Fake.second in *. lia.
Qed.


(** C6 fails as it is stated. The context is cancelled at 2 s, while the
    check sent at the first tick (1 s) is in flight; the check returns at
    2.5 s, after the tick of 2 s. At the select entered at 2.5 s both the
    tick and the end of the context can proceed; when the tick is taken a
    further check is sent, and the call ends with the error of that check,
    not with the context's. *)
Lemma UploadBOM_cancelled_with_tick_pending :
  let ctx := {| context.done_at := Some (2 * Fake.second); context.cause := Canceled |} in
  let slow := {| Fake.store := [Fake.myproj 0 []]; Fake.racer := None;
                 Fake.updateErr := None; Fake.uploadErr := None;
                 Fake.polls := [(Ok true, 1500000000);
                                (Fail (ServiceError "Get /api/v1/event/token: context canceled"), 0)] |} in
  let out := DependencyTrack.UploadBOM Fake.firstReady Fake.recorded 8 ctx
               "myproj" "v1" "" "" [x4d] true "" "" (Fake.start slow) in
  fst out = Returned (Some (ServiceError "Get /api/v1/event/token: context canceled"))
  /\ fst out <> Returned (Some (context.cause ctx))
  /\ dtrack.journal (snd out)
     = [(0, dtrack.ReqLookup "myproj" "v1");
        (0, dtrack.ReqUpload
              (DependencyTrack.uploadRequest (Fake.myproj 0 []) "v1" "" "" [x4d] true));
        (1000000000, dtrack.ReqIsBeingProcessed "token-1");
        (2500000000, dtrack.ReqIsBeingProcessed "token-1")].
Proof.
  vm_compute. repeat split. discriminate.
Qed.

(** On the same run a scheduler that takes the end of the context ends the
    call with the context's error at 2.5 s: both outcomes are runs of the
    code. *)
Example UploadBOM_cancelled_done_taken :
  let ctx := {| context.done_at := Some (2 * Fake.second); context.cause := Canceled |} in
  let slow := {| Fake.store := [Fake.myproj 0 []]; Fake.racer := None;
                 Fake.updateErr := None; Fake.uploadErr := None;
                 Fake.polls := [(Ok true, 1500000000);
                                (Fail (ServiceError "Get /api/v1/event/token: context canceled"), 0)] |} in
  let out := DependencyTrack.UploadBOM Fake.lastReady Fake.recorded 8 ctx
               "myproj" "v1" "" "" [x4d] true "" "" (Fake.start slow) in
  fst out = Returned (Some Canceled) /\ now (snd out) = 2500000000.
Proof.
  vm_compute. repeat split.
Qed.


(** On the double: the project is created and found by the second lookup
    as "uuid-of-myproj", and the BOM is submitted under the empty
    identifier that came with the error of the first lookup. *)
Example UploadBOM_after_create_on_the_double :
  let out := DependencyTrack.UploadBOM Fake.firstReady Fake.recorded 8 context.Background
               "myproj" "v1" "" "" [x4d] true "" ""
               (Fake.start (FakeRun.done Fake.empty)) in
  fst out = Returned None
  /\ map dtrack.UUID (Fake.store (fst (srv (snd out)))) = ["uuid-of-myproj"]
  /\ nth_error (dtrack.journal (snd out)) 3
     = Some (0, dtrack.ReqUpload
                  (DependencyTrack.uploadRequest Fake.nothing "v1" "" "" [x4d] true))
  /\ dtrack.ProjectUUID (DependencyTrack.uploadRequest Fake.nothing "v1" "" "" [x4d] true)
     = Some "".
Proof.
  vm_compute. repeat split.
Qed.

Lemma UploadBOM_cancelled_before_tick_witness :
  let ctx := {| context.done_at := Some 500000000; context.cause := Canceled |} in
  let out := DependencyTrack.UploadBOM Fake.firstReady Fake.recorded 1 ctx
               "myproj" "v1" "" "" [x4d] true "" "" (Fake.start Fake.empty) in
  fst out = Returned (Some Canceled)
  /\ now (snd out) = 500000000
  /\ List.length (dtrack.journal (snd out)) = 4%nat.
Proof.
  intros ctx out. subst out.
  destruct (UploadBOM_cancelled_before_tick Fake.firstReady Fake.recorded ctx
              "myproj" "v1" "" "" [x4d] true "" "" 0 500000000
              eq_refl eq_refl eq_refl) as [_ Hcall].
  edestruct (Hcall (Fake.start Fake.empty)) as [Hrun _];
    [reflexivity | reflexivity | reflexivity | reflexivity |].
  rewrite Hrun. repeat split.
Defined.

(** ** More on the Run Coordinator *)

Section CoordinatorCalls.
Variable api : sbomreport.API.
Variable render : tmpl.Render (sbomreport.Mapping api).
Context {W : Type}.
Variable d : DependencyTrackClient.DependencyTrackClient W.
Variable stamps : list (string * string).
Variable ctx : context.Context.
Variable cfg : config.Config.

Local Abbreviation run := (uploader.Run api render (uploader.spied d cfg stamps) ctx).
Local Abbreviation plain :=
  {| uploader.dtrack := d; uploader.config := cfg; uploader.latestTimestamps := stamps |}.
Local Abbreviation rendersTo sbomMap :=
  (fun template text : string => render sbomMap template = Ok text).

(** Either [Run] returns before anything is asked of the tracker, or the
    report was read, its verb is "update" and every template rendered. *)
Lemma Run_stops_or_resolves (input : list byte) (w : W) :
  (exists e, run input (w, []) = (e, (w, [])))
  \/ exists sbom sbomMap projectName projectVersion parentName parentVersion projectTags,
       sbomreport.New api input = Ok sbom
       /\ sbomreport.Verb api sbom = "update"
       /\ sbomreport.ToMap api sbom = Ok sbomMap
       /\ render sbomMap (config.ProjectName cfg) = Ok projectName
       /\ render sbomMap (config.ProjectVersion cfg) = Ok projectVersion
       /\ uploader.renderTags api render sbomMap (config.ProjectTags cfg) [] = Ok projectTags
       /\ render sbomMap (config.ParentName cfg) = Ok parentName
       /\ render sbomMap (config.ParentVersion cfg) = Ok parentVersion.
Proof.
  unfold uploader.Run.
  destruct (sbomreport.New api input) as [sbom | e] eqn:Hnew.
  2: { left. destruct (sbomreport.IsErrNotSBOMReport api e); eexists; reflexivity. }
  unfold sbomreport.ISVerbUpdate.
  destruct (String.eqb_spec (sbomreport.Verb api sbom) "update") as [Hverb | Hverb];
    cbn [negb]; [| left; eexists; reflexivity].
  destruct (sbomreport.ToMap api sbom) as [sbomMap | e] eqn:Hmap;
    [| left; eexists; reflexivity].
  cbn [uploader.config uploader.spied].
  destruct (render sbomMap (config.ProjectName cfg)) as [pn | e] eqn:Hname;
    [| left; eexists; reflexivity].
  destruct (render sbomMap (config.ProjectVersion cfg)) as [pv | e] eqn:Hversion;
    [| left; eexists; reflexivity].
  destruct (uploader.renderTags api render sbomMap (config.ProjectTags cfg) [])
    as [tags | e] eqn:Htags; [| left; eexists; reflexivity].
  destruct (render sbomMap (config.ParentName cfg)) as [parn | e] eqn:Hparn;
    [| left; eexists; reflexivity].
  destruct (render sbomMap (config.ParentVersion cfg)) as [parv | e] eqn:Hparv;
    [| left; eexists; reflexivity].
  right. exists sbom, sbomMap, pn, pv, parn, parv, tags. repeat split; assumption.
Qed.

(** X1. Whatever the input and whatever the tracker answers, the calls
    [Run] makes are, in this order: at most one [IsLatest], one [UploadBOM],
    at most one [AddTagsToProject] -- or none at all. All of them name the
    same project and version, and the tag call has a non-empty tag list. *)
Theorem Run_call_sequence (input : list byte) (w : W) :
  let log := snd (snd (run input (w, []))) in
  log = []
  \/ exists projectName projectVersion parentName parentVersion bom isLatest before after,
       log = before
             ++ DependencyTrackClient.CallUploadBOM projectName projectVersion parentName
                  parentVersion bom isLatest "" ""
                :: after
       /\ (before = []
           \/ exists ts,
                before = [DependencyTrackClient.CallIsLatest projectName projectVersion ts])
       /\ (after = []
           \/ exists tags,
                tags <> []
                /\ after = [DependencyTrackClient.CallAddTagsToProject projectName
                              projectVersion tags "" ""]).
Proof.
  intros log. subst log.
  destruct (Run_stops_or_resolves input w)
    as [[e Hstop] | (sbom & sbomMap & pn & pv & parn & parv & tags & Hnew & Hverb & Hmap
                     & Hname & Hversion & Htags & Hparn & Hparv)].
  - left. now rewrite Hstop.
  - right.
    rewrite (Run_spied api render d stamps ctx cfg input sbom sbomMap pn pv parn parv tags
               Hnew Hverb Hmap Hname Hversion Htags Hparn Hparv w).
    set (a := uploader.arbitrate api plain ctx sbom pn pv w).
    set (up := DependencyTrackClient.UploadBOM d ctx pn pv parn parv
                 (sbomreport.BOM api sbom) (fst a) "" "" (snd a)).
    exists pn, pv, parn, parv, (sbomreport.BOM api sbom), (fst a).
    exists (uploader.arbiterCalls api sbom pn pv).
    assert (Hbefore :
              uploader.arbiterCalls api sbom pn pv = []
              \/ exists ts,
                   uploader.arbiterCalls api sbom pn pv
                   = [DependencyTrackClient.CallIsLatest pn pv ts]).
    { unfold uploader.arbiterCalls.
      destruct (strconv.ParseInt10 (sbomreport.UpdateTimestamp api sbom) 64) as [ts | e];
        [right; now exists ts | now left]. }
    destruct (fst up) as [e |].
    + exists []. cbn [snd]. repeat split; [exact Hbefore | now left].
    + destruct tags as [| t ts].
      * exists []. cbn [snd]. repeat split; [exact Hbefore | now left].
      * exists [DependencyTrackClient.CallAddTagsToProject pn pv (t :: ts) "" ""].
        cbn [snd]. repeat split; [exact Hbefore |].
        right. exists (t :: ts). split; [discriminate | reflexivity].
Qed.

(** X5. Every call [Run] makes carries what the templates of the
    configuration render to on the report's mapping: project name and
    version in all three calls; parent name, parent version and the report's
    BOM in [UploadBOM]; in [AddTagsToProject] the tag templates rendered
    one by one in their order, at least one. The timestamp handed to
    [IsLatest] is the report's, parsed, and fits an [int64]. The trailing
    two string arguments are always empty. *)
Theorem Run_calls_carry_resolved_fields (input : list byte)
    (sbom : sbomreport.SBOMReport api) (sbomMap : sbomreport.Mapping api) (w : W) :
  sbomreport.New api input = Ok sbom ->
  sbomreport.ToMap api sbom = Ok sbomMap ->
  Forall (Resolved.carried api render cfg sbom sbomMap) (snd (snd (run input (w, [])))).
Proof.
  intros Hnew0 Hmap0.
  destruct (Run_stops_or_resolves input w)
    as [[e Hstop] | (sbom' & sbomMap' & pn & pv & parn & parv & tags & Hnew & Hverb & Hmap
                     & Hname & Hversion & Htags & Hparn & Hparv)].
  - rewrite Hstop. constructor.
  - assert (sbom' = sbom) by congruence. subst sbom'.
    assert (sbomMap' = sbomMap) by congruence. subst sbomMap'.
    rewrite (Run_spied api render d stamps ctx cfg input sbom sbomMap pn pv parn parv tags
               Hnew Hverb Hmap Hname Hversion Htags Hparn Hparv w).
    set (a := uploader.arbitrate api plain ctx sbom pn pv w).
    set (up := DependencyTrackClient.UploadBOM d ctx pn pv parn parv
                 (sbomreport.BOM api sbom) (fst a) "" "" (snd a)).
    assert (Harb : Forall (Resolved.carried api render cfg sbom sbomMap)
                     (uploader.arbiterCalls api sbom pn pv)).
    { unfold uploader.arbiterCalls.
      destruct (strconv.ParseInt10 (sbomreport.UpdateTimestamp api sbom) 64) as [ts | e]
        eqn:Hts; [| constructor].
      constructor; [| constructor].
      destruct (ParseInt10_int64 _ _ Hts) as [Hlo Hhi].
      cbn. repeat split; assumption. }
    destruct (renderTags_in_order api render sbomMap _ _ _ Htags)
      as (rendered & Hrendered & Hall).
    cbn [app] in Hrendered. subst rendered.
    destruct (fst up) as [e |]; [| destruct tags as [| t ts]]; cbn [snd];
      apply Forall_app; (split; [exact Harb |]);
      repeat constructor; try assumption; discriminate.
Qed.

(** X2. When the report's mapping cannot be built, or a template fails to
    render, [Run] returns that error and nothing is asked of the tracker.
    The templates are rendered in the order project name, project version,
    tags (first to last), parent name, parent version, and the first
    failure is the one returned. *)
Theorem Run_resolution_failure (input : list byte)
    (sbom : sbomreport.SBOMReport api) (w : W) (err : error) :
  sbomreport.New api input = Ok sbom ->
  sbomreport.Verb api sbom = "update" ->
  (sbomreport.ToMap api sbom = Fail err
   \/ exists sbomMap,
        sbomreport.ToMap api sbom = Ok sbomMap
        /\ (render sbomMap (config.ProjectName cfg) = Fail err
            \/ exists projectName,
                 render sbomMap (config.ProjectName cfg) = Ok projectName
                 /\ (render sbomMap (config.ProjectVersion cfg) = Fail err
                     \/ exists projectVersion,
                          render sbomMap (config.ProjectVersion cfg) = Ok projectVersion
                          /\ (uploader.renderTags api render sbomMap
                                (config.ProjectTags cfg) [] = Fail err
                              \/ exists projectTags,
                                   uploader.renderTags api render sbomMap
                                     (config.ProjectTags cfg) [] = Ok projectTags
                                   /\ (render sbomMap (config.ParentName cfg) = Fail err
                                       \/ exists parentName,
                                            render sbomMap (config.ParentName cfg)
                                              = Ok parentName
                                            /\ render sbomMap (config.ParentVersion cfg)
                                               = Fail err))))) ->
  run input (w, []) = (Some err, (w, [])).
Proof.
  intros Hnew Hverb Hfail. unfold uploader.Run. rewrite Hnew.
  unfold sbomreport.ISVerbUpdate. rewrite Hverb.
  cbn [String.eqb Ascii.eqb Bool.eqb negb uploader.config uploader.spied].
  destruct Hfail as [-> | (sbomMap & -> & Hfail)]; [reflexivity |].
  destruct Hfail as [-> | (pn & -> & Hfail)]; [reflexivity |].
  destruct Hfail as [-> | (pv & -> & Hfail)]; [reflexivity |].
  destruct Hfail as [-> | (tags & -> & Hfail)]; [reflexivity |].
  destruct Hfail as [-> | (parn & -> & ->)]; reflexivity.
Qed.

(** The tag templates fail with the error of the first one that does not
    render. *)
Lemma renderTags_first_failure (sbomMap : sbomreport.Mapping api)
    (before : list string) (tag : string) (after rendered : list string) (err : error) :
  Forall2 (rendersTo sbomMap) before rendered ->
  render sbomMap tag = Fail err ->
  forall acc,
    uploader.renderTags api render sbomMap (before ++ tag :: after) acc = Fail err.
Proof.
  intros Hall Hfail. induction Hall as [| t r before' rendered' Ht _ IH]; intros acc; cbn.
  - now rewrite Hfail.
  - rewrite Ht. apply IH.
Qed.

End CoordinatorCalls.

Section ResolvedOutcome.
Variable api : sbomreport.API.
Variable render : tmpl.Render (sbomreport.Mapping api).
Context {W : Type}.
Variable d : DependencyTrackClient.DependencyTrackClient W.
Variable stamps : list (string * string).
Variable ctx : context.Context.
Variable cfg : config.Config.
Variable input : list byte.
Variable sbom : sbomreport.SBOMReport api.
Variable sbomMap : sbomreport.Mapping api.
Variables projectName projectVersion parentName parentVersion : string.
Variable projectTags : list string.
Hypothesis Hnew : sbomreport.New api input = Ok sbom.
Hypothesis Hverb : sbomreport.Verb api sbom = "update".
Hypothesis Hmap : sbomreport.ToMap api sbom = Ok sbomMap.
Hypothesis Hname : render sbomMap (config.ProjectName cfg) = Ok projectName.
Hypothesis Hversion : render sbomMap (config.ProjectVersion cfg) = Ok projectVersion.
Hypothesis Htags :
  uploader.renderTags api render sbomMap (config.ProjectTags cfg) [] = Ok projectTags.
Hypothesis HparentName : render sbomMap (config.ParentName cfg) = Ok parentName.
Hypothesis HparentVersion : render sbomMap (config.ParentVersion cfg) = Ok parentVersion.

Local Abbreviation run := (uploader.Run api render (uploader.spied d cfg stamps) ctx).
Local Abbreviation plain :=
  {| uploader.dtrack := d; uploader.config := cfg; uploader.latestTimestamps := stamps |}.

(** X3. When [UploadBOM] fails, [Run] returns its error as it is and does
    not call [AddTagsToProject], whatever tags were resolved: [UploadBOM]
    is the last call, and the world is the one it left. *)
Theorem Run_upload_failure_skips_tags (w : W) (err : error) :
  let a := uploader.arbitrate api plain ctx sbom projectName projectVersion w in
  let up := DependencyTrackClient.UploadBOM d ctx projectName projectVersion parentName
              parentVersion (sbomreport.BOM api sbom) (fst a) "" "" (snd a) in
  fst up = Some err ->
  fst (run input (w, [])) = Some err
  /\ fst (snd (run input (w, []))) = snd up
  /\ filter DependencyTrackClient.isAddTags (snd (snd (run input (w, [])))) = []
  /\ exists before,
       snd (snd (run input (w, [])))
       = before ++ [DependencyTrackClient.CallUploadBOM projectName projectVersion
                      parentName parentVersion (sbomreport.BOM api sbom) (fst a) "" ""].
Proof.
  intros a up Hup.
  rewrite (Run_spied api render d stamps ctx cfg input sbom sbomMap projectName
             projectVersion parentName parentVersion projectTags
             Hnew Hverb Hmap Hname Hversion Htags HparentName HparentVersion w).
  fold a. fold up. rewrite Hup. cbn [fst snd]. repeat split.
  - rewrite filter_app.
    destruct (arbiterCalls_only_IsLatest api sbom projectName projectVersion) as [_ ->].
    reflexivity.
  - eexists. reflexivity.
Qed.

(** X4. Once the report is read and the templates rendered, [Run] returns
    nil exactly when [UploadBOM] succeeded and either no tag was resolved
    or [AddTagsToProject] succeeded as well. *)
Theorem Run_nil_iff_all_steps_succeed (w : W) :
  let a := uploader.arbitrate api plain ctx sbom projectName projectVersion w in
  let up := DependencyTrackClient.UploadBOM d ctx projectName projectVersion parentName
              parentVersion (sbomreport.BOM api sbom) (fst a) "" "" (snd a) in
  let tag := DependencyTrackClient.AddTagsToProject d ctx projectName projectVersion
               projectTags "" "" (snd up) in
  fst (run input (w, [])) = None
  <-> fst up = None /\ (projectTags = [] \/ fst tag = None).
Proof.
  intros a up tag.
  rewrite (Run_spied api render d stamps ctx cfg input sbom sbomMap projectName
             projectVersion parentName parentVersion projectTags
             Hnew Hverb Hmap Hname Hversion Htags HparentName HparentVersion w).
  fold a. fold up. fold tag.
  destruct (fst up) as [e |]; [| destruct projectTags as [| t ts]]; cbn [fst].
  - split; [discriminate | intros [H _]; discriminate H].
  - split; [intros _; split; [reflexivity | now left] | reflexivity].
  - split.
    + intros H. split; [reflexivity | now right].
    + intros [_ [H | H]]; [discriminate H | exact H].
Qed.

End ResolvedOutcome.

(** ** More on the Latest-Version Arbiter *)



(** ** More on the Upload Orchestrator *)

Section Submitted.
Context {S : Type}.
Variable pick : DependencyTrack.Scheduler.
Variable dt : DependencyTrack.DependencyTrack S.
Variable ctx : context.Context.
Variables projectName projectVersion parentName parentVersion : string.
Variable bom : list byte.
Variable isLatest : bool.
Variables namespace serviceName : string.
Variables w w1 w2 : World S.
Variable project : dtrack.Project.
Hypothesis Hensure :
  DependencyTrack.ensureProject dt ctx projectName projectVersion w = (Ok project, w1).

Local Abbreviation UploadBOM fuel :=
  (DependencyTrack.UploadBOM pick dt fuel ctx projectName projectVersion parentName
     parentVersion bom isLatest namespace serviceName w).
Local Abbreviation request :=
  (DependencyTrack.uploadRequest project projectVersion parentName parentVersion bom isLatest).
Local Abbreviation interval := (DependencyTrack.SBOMUploadCheckInterval dt).
Local Abbreviation timeout := (DependencyTrack.SBOMUploadTimeout dt).

(** X7. When the submission of the BOM is refused, [UploadBOM] returns
    that error and the poll never starts: no ticker is made (so none of its
    panics), no check is sent, the world is the one the submission left. *)
Theorem UploadBOM_submit_failure (fuel : nat) (err : error) :
  dtrack.BOM_Upload (DependencyTrack.Client dt) ctx request w1 = (Fail err, w2) ->
  UploadBOM fuel = (Returned (Some err), w2).
Proof.
  intros Hupload. unfold DependencyTrack.UploadBOM. now rewrite Hensure, Hupload.
Qed.

Variable uploadToken : dtrack.EventToken.
Hypothesis Hupload :
  dtrack.BOM_Upload (DependencyTrack.Client dt) ctx request w1 = (Ok uploadToken, w2).

(** X8. With a check interval shorter than the timeout and a context that
    is not done until after the first tick, the first check is sent one
    interval after the submission, and when its answer is not "still being
    processed" it ends the call: nil for "no longer processed", the error
    of the check otherwise. *)
Theorem UploadBOM_first_check_decides (fuel : nat) (answer : result bool) (w3 : World S) :
  0 < interval < timeout ->
  (forall d, context.done_at ctx = Some d -> now w2 + interval < d) ->
  dtrack.Event_IsBeingProcessed (DependencyTrack.Client dt) ctx uploadToken
    (at_time (now w2 + interval) w2) = (answer, w3) ->
  answer <> Ok true ->
  UploadBOM (Datatypes.S fuel)
  = (Returned (match answer with Ok _ => None | Fail err => Some err end), w3).
Proof.
  intros Hshort Hdone Hcheck Hend.
  rewrite (UploadBOM_polls pick dt ctx projectName projectVersion parentName parentVersion
             bom isLatest namespace serviceName _ w w1 w2 project uploadToken
             Hensure Hupload).
  unfold DependencyTrack.pollTask.
  destruct (Z.leb_spec interval 0); [lia |].
  cbn [DependencyTrack.pollLoop].
  rewrite select_tick.
  - replace (Z.max (now w2) (now w2 + interval)) with (now w2 + interval) by lia.
    rewrite Hcheck.
    destruct answer as [[|] | err]; [contradiction | reflexivity | reflexivity].
  - lia.
  - destruct (context.done_at ctx) as [d' |] eqn:Hd; [| exact I].
    specialize (Hdone d' eq_refl). lia.
Qed.

(** X9. With a timeout shorter than the check interval and a context that
    is never done, [UploadBOM] returns the timeout error once the timeout
    has elapsed since the submission, before any check is sent. *)
Theorem UploadBOM_timeout_shorter_than_interval (fuel : nat) :
  context.done_at ctx = None ->
  0 < interval ->
  timeout < interval ->
  UploadBOM (Datatypes.S fuel)
  = (Returned (Some (errorString "timeout exceeded")),
     at_time (now w2 + Z.max 0 timeout) w2).
Proof.
  intros Hnever Hpos Hshort.
  rewrite (UploadBOM_polls pick dt ctx projectName projectVersion parentName parentVersion
             bom isLatest namespace serviceName _ w w1 w2 project uploadToken
             Hensure Hupload).
  now rewrite (pollTask_timeout_before_first_tick pick dt ctx fuel uploadToken w2
                 Hnever Hpos Hshort).
Qed.

(** X10. With a check interval that is zero or negative, [UploadBOM]
    panics in [time.NewTicker] -- after the BOM has been submitted. *)
Theorem UploadBOM_nonpositive_interval_panics (fuel : nat) :
  interval <= 0 ->
  UploadBOM fuel = (Panicked "non-positive interval for NewTicker", w2).
Proof.
  intros Hnonpos.
  rewrite (UploadBOM_polls pick dt ctx projectName projectVersion parentName parentVersion
             bom isLatest namespace serviceName _ w w1 w2 project uploadToken
             Hensure Hupload).
  unfold DependencyTrack.pollTask.
  destruct (Z.leb_spec interval 0); [reflexivity | lia].
Qed.

End Submitted.

(** ** What the select can return *)

Lemma earliest_attained (l : list (DependencyTrack.SelectCase * Z)) (bound : Z) :
  DependencyTrack.earliest l bound = bound
  \/ exists a, In a l /\ snd a = DependencyTrack.earliest l bound.
Proof.
  induction l as [| a l IH]; [now left |].
  change (DependencyTrack.earliest (a :: l) bound)
    with (Z.min (snd a) (DependencyTrack.earliest l bound)).
  destruct (Z.min_spec (snd a) (DependencyTrack.earliest l bound)) as [[_ ->] | [_ ->]].
  - right. exists a. split; [now left | reflexivity].
  - destruct IH as [IH | (b & Hb & Heq)]; [now left |].
    right. exists b. split; [now right | exact Heq].
Qed.

(** The select returns one of its communications, with the instant at
    which that one can proceed. *)
Lemma select_in_arms (pick : DependencyTrack.Scheduler) (ctx : context.Context)
    (timeout t nextTick : Z) (c : DependencyTrack.SelectCase) (wake : Z) :
  DependencyTrack.select pick ctx timeout t nextTick = (c, wake) ->
  In (c, wake) (DependencyTrack.arms ctx timeout t nextTick).
Proof.
  unfold DependencyTrack.select.
  set (l := DependencyTrack.arms ctx timeout t nextTick).
  set (wake0 := DependencyTrack.earliest l (t + Z.max 0 timeout)).
  set (ready := map fst (filter (fun a => snd a =? wake0) l)).
  intros Hsel. inversion Hsel as [[Hc Hwake]]. clear Hsel.
  assert (Hsome : exists a, In a l /\ snd a = wake0).
  { destruct (earliest_attained l (t + Z.max 0 timeout)) as [Hb | Ha]; [| exact Ha].
    exists (DependencyTrack.caseTimeout, t + Z.max 0 timeout). split.
    - subst l. unfold DependencyTrack.arms. right. now left.
    - subst wake0. now rewrite Hb. }
  assert (Hne : ready <> []).
  { destruct Hsome as (a & Ha & Heq). intros Hempty.
    assert (Hin : In (fst a) ready).
    { subst ready. apply in_map. apply filter_In. split; [exact Ha |].
      now apply Z.eqb_eq. }
    rewrite Hempty in Hin. exact Hin. }
  assert (Hin : In (nth (Nat.modulo (pick wake0 ready) (List.length ready)) ready
                      DependencyTrack.caseTimeout) ready).
  { apply nth_In. apply Nat.mod_upper_bound. now destruct ready. }
  subst ready. apply in_map_iff in Hin. destruct Hin as ([c' tm] & Hfst & Hin).
  apply filter_In in Hin. destruct Hin as [Hin Htm]. cbn in Hfst, Htm.
  apply Z.eqb_eq in Htm. now subst.
Qed.

Lemma tick_instant (ctx : context.Context) (timeout t nextTick wake : Z) :
  In (DependencyTrack.caseTick, wake) (DependencyTrack.arms ctx timeout t nextTick) ->
  wake = Z.max t nextTick.
Proof.
  unfold DependencyTrack.arms. intros [H | [H | H]].
  - now inversion H.
  - discriminate H.
  - destruct (context.done_at ctx); [destruct H as [H | []]; discriminate H | destruct H].
Qed.

(** ** The checks of the poll loop *)

Section Checks.
Context {S : Type}.
Variable pick : DependencyTrack.Scheduler.
Variable c : dtrack.Client S.
Variables timeout interval : Z.
Variable ctx : context.Context.
Variable uploadToken : dtrack.EventToken.

Local Abbreviation dt := (DependencyTrack.observed c timeout interval).
Local Abbreviation check := (dtrack.ReqIsBeingProcessed uploadToken).

(** The loop sends checks of its token and nothing else, at most one per
    iteration; with a positive interval the checks follow the ticker: the
    one after [i] others comes no earlier than [i] intervals after the
    tick the loop was waiting for. *)
Lemma pollLoop_checks (fuel : nat) :
  forall nextTick (w : World (S * dtrack.Journal)),
  exists sent,
    dtrack.journal (snd (DependencyTrack.pollLoop pick dt fuel ctx uploadToken nextTick w))
    = dtrack.journal w ++ sent
    /\ Forall (fun q => snd q = check) sent
    /\ (List.length sent <= fuel)%nat
    /\ (0 < interval ->
        forall i t q, nth_error sent i = Some (t, q) ->
                      nextTick + Z.of_nat i * interval <= t).
Proof.
  induction fuel as [| fuel IH]; intros nextTick w.
  - exists []. cbn. rewrite app_nil_r. repeat split; [constructor | lia |].
    intros _ [| i] t q H; discriminate H.
  - cbn [DependencyTrack.pollLoop].
    destruct (DependencyTrack.select pick ctx (DependencyTrack.SBOMUploadTimeout dt)
                (now w) nextTick) as [[| |] wake] eqn:Hsel.
    + apply select_in_arms, tick_instant in Hsel.
      cbn [DependencyTrack.Client DependencyTrack.observed dtrack.recording
             dtrack.Event_IsBeingProcessed].
      unfold dtrack.note.
      destruct (dtrack.Event_IsBeingProcessed c ctx uploadToken
                  (dtrack.inner (at_time wake w))) as [[processing | err] w2];
        cbn [fst snd].
      * destruct processing; cbn [negb].
        -- match goal with
           | |- context [DependencyTrack.pollLoop _ _ _ _ _ ?n ?v] =>
               destruct (IH n v) as (sent & Hsent & Hall & Hlen & Hsched)
           end.
           exists ((wake, check) :: sent). rewrite Hsent. cbn.
           rewrite <- app_assoc. repeat split.
           ++ now constructor.
           ++ lia.
           ++ intros Hpos [| i] t q Hnth; cbn in Hnth.
              ** inversion Hnth. subst. lia.
              ** specialize (Hsched Hpos i t q Hnth).
                 cbn [DependencyTrack.SBOMUploadCheckInterval DependencyTrack.observed]
                   in Hsched.
                 assert (Hq : 0 <= (wake - nextTick) / interval)
                   by (apply Z.div_pos; lia).
                 nia.
        -- exists [(wake, check)]. cbn. repeat split.
           ++ now repeat constructor.
           ++ lia.
           ++ intros _ [| [| i]] t q Hnth; cbn in Hnth; inversion Hnth. subst. lia.
      * exists [(wake, check)]. cbn. repeat split.
        -- now repeat constructor.
        -- lia.
        -- intros _ [| [| i]] t q Hnth; cbn in Hnth; inversion Hnth. subst. lia.
    + exists []. cbn. rewrite app_nil_r. repeat split; [constructor | lia |].
      intros _ [| i] t q H; discriminate H.
    + exists []. cbn. rewrite app_nil_r. repeat split; [constructor | lia |].
      intros _ [| i] t q H; discriminate H.
Qed.

(** X12. The poll sends nothing but checks of the token it was started
    with, and never more than one per tick of the ticker: counting from the
    start of the poll, the [k]-th check is sent no earlier than [k] check
    intervals later. *)
Theorem pollTask_check_schedule (fuel : nat) (w : World (S * dtrack.Journal)) :
  0 < interval ->
  exists sent,
    dtrack.journal (snd (DependencyTrack.pollTask pick dt fuel ctx uploadToken w))
    = dtrack.journal w ++ sent
    /\ Forall (fun q => snd q = check) sent
    /\ forall i t q, nth_error sent i = Some (t, q) ->
                     now w + (Z.of_nat i + 1) * interval <= t.
Proof.
  intros Hpos. unfold DependencyTrack.pollTask.
  cbn [DependencyTrack.SBOMUploadCheckInterval DependencyTrack.observed].
  destruct (Z.leb_spec interval 0); [lia |].
  destruct (pollLoop_checks fuel (now w + interval) w)
    as (sent & Hsent & Hall & _ & Hsched).
  exists sent. repeat split; [exact Hsent | exact Hall |].
  intros i t q Hnth. specialize (Hsched Hpos i t q Hnth). lia.
Qed.

(** Whatever the interval, the poll sends checks only. *)
Lemma pollTask_sends_checks (fuel : nat) (w : World (S * dtrack.Journal)) :
  exists sent,
    dtrack.journal (snd (DependencyTrack.pollTask pick dt fuel ctx uploadToken w))
    = dtrack.journal w ++ sent
    /\ Forall (fun q => snd q = check) sent.
Proof.
  unfold DependencyTrack.pollTask.
  destruct (DependencyTrack.SBOMUploadCheckInterval dt <=? 0).
  - exists []. cbn. rewrite app_nil_r. split; constructor.
  - destruct (pollLoop_checks fuel
                (now w + DependencyTrack.SBOMUploadCheckInterval dt) w)
      as (sent & Hsent & Hall & _).
    exists sent. split; assumption.
Qed.

End Checks.

Section NeverTimesOut.
Context {S : Type}.
Variable pick : DependencyTrack.Scheduler.
Variable c : dtrack.Client S.
Variables timeout interval : Z.
Variable ctx : context.Context.
Variable uploadToken : dtrack.EventToken.
Variable busy : World S -> Prop.

Local Abbreviation dt := (DependencyTrack.observed c timeout interval).

(** X11. With a check interval shorter than the timeout and a context that
    is never done, the poll does not end for as long as the service answers
    "still being processed": after any number of iterations it is still
    running, has sent one check in each, and the clock has advanced by at
    least one interval for each -- the timeout does not end it. *)
Theorem pollTask_never_times_out_while_busy (fuel : nat) (w : World (S * dtrack.Journal)) :
  0 < interval < timeout ->
  context.done_at ctx = None ->
  (forall v : World S, busy v ->
     fst (dtrack.Event_IsBeingProcessed c ctx uploadToken v) = Ok true
     /\ now v <= now (snd (dtrack.Event_IsBeingProcessed c ctx uploadToken v))
     /\ busy (snd (dtrack.Event_IsBeingProcessed c ctx uploadToken v))) ->
  (forall (v : World S) (t : Z), busy v -> busy (at_time t v)) ->
  busy (dtrack.inner w) ->
  let out := DependencyTrack.pollTask pick dt fuel ctx uploadToken w in
  fst out = Unfinished
  /\ List.length (dtrack.journal (snd out)) = (List.length (dtrack.journal w) + fuel)%nat
  /\ now w + Z.of_nat fuel * interval <= now (snd out).
Proof.
  intros Hshort Hnever Hbusy Hwait Hw out. subst out.
  unfold DependencyTrack.pollTask.
  cbn [DependencyTrack.SBOMUploadCheckInterval DependencyTrack.observed].
  destruct (Z.leb_spec interval 0); [lia |].
  destruct (pollLoop_keeps_ticking pick c timeout interval ctx uploadToken Hshort Hnever
              busy Hbusy Hwait fuel (now w + interval) w Hw ltac:(lia))
    as (Hrun & Hlen & Htime).
  repeat split; [exact Hrun | exact Hlen | lia].
Qed.

End NeverTimesOut.

(** ** The requests of one upload *)

Lemma count_cons (kind : Z * dtrack.Request -> bool) (q : Z * dtrack.Request)
    (l : dtrack.Journal) :
  Requests.count kind (q :: l)
  = ((if kind q then 1 else 0) + Requests.count kind l)%nat.
Proof.
  unfold Requests.count. cbn [filter]. now destruct (kind q).
Qed.

Lemma count_checks (token : dtrack.EventToken) (sent : dtrack.Journal) :
  Forall (fun q => snd q = dtrack.ReqIsBeingProcessed token) sent ->
  Requests.count Requests.isLookup sent = 0%nat
  /\ Requests.count Requests.isCreate sent = 0%nat
  /\ Requests.count Requests.isUpload sent = 0%nat
  /\ Requests.count Requests.isUpdate sent = 0%nat.
Proof.
  unfold Requests.count, Requests.isLookup, Requests.isCreate, Requests.isUpload,
    Requests.isUpdate.
  induction 1 as [| q sent Hq _ IH]; [repeat split |].
  cbn [filter]. rewrite Hq. exact IH.
Qed.

Section RequestsOfUpload.
Context {S : Type}.
Variable pick : DependencyTrack.Scheduler.
Variable c : dtrack.Client S.
Variables timeout interval : Z.
Variable ctx : context.Context.
Variables projectName projectVersion parentName parentVersion : string.
Variable bom : list byte.
Variable isLatest : bool.
Variables namespace serviceName : string.

Local Abbreviation dt := (DependencyTrack.observed c timeout interval).
Local Abbreviation request project :=
  (DependencyTrack.uploadRequest project projectVersion parentName parentVersion bom isLatest).

(** From the submission on: the upload request, then checks only. *)
Lemma submit_requests (fuel : nat) (project : dtrack.Project)
    (w : World (S * dtrack.Journal)) :
  exists rest,
    dtrack.journal
      (snd (let (r2, w2) := dtrack.BOM_Upload (DependencyTrack.Client dt) ctx
                              (request project) w in
            match r2 with
            | Fail err => (Returned (Some err), w2)
            | Ok uploadToken =>
                let (o, w3) := DependencyTrack.pollTask pick dt fuel ctx uploadToken w2 in
                (DependencyTrack.awaitPoll o, w3)
            end))
    = dtrack.journal w ++ (now w, dtrack.ReqUpload (request project)) :: rest
    /\ Requests.count Requests.isLookup rest = 0%nat
    /\ Requests.count Requests.isCreate rest = 0%nat
    /\ Requests.count Requests.isUpload rest = 0%nat
    /\ Requests.count Requests.isUpdate rest = 0%nat.
Proof.
  cbn [DependencyTrack.Client DependencyTrack.observed dtrack.recording dtrack.BOM_Upload].
  unfold dtrack.note.
  destruct (dtrack.BOM_Upload c ctx (request project) (dtrack.inner w))
    as [[uploadToken | err] w2]; cbn [fst snd].
  - match goal with
    | |- context [DependencyTrack.pollTask _ _ _ _ _ ?v] =>
        destruct (pollTask_sends_checks pick c timeout interval ctx uploadToken fuel v)
          as (sent & Hsent & Hall);
        destruct (DependencyTrack.pollTask pick dt fuel ctx uploadToken v) as [o w3]
    end.
    cbn [snd] in *. exists sent. split.
    + rewrite Hsent. cbn. now rewrite <- app_assoc.
    + exact (count_checks uploadToken sent Hall).
  - exists []. split; [reflexivity | repeat split].
Qed.

(** X13. Whatever the service answers and however long the poll runs, one
    call of [UploadBOM] sends at most two project lookups, at most one
    create, at most one BOM upload and no project update: nothing is sent
    twice to make up for a failure. *)
Theorem UploadBOM_requests_bounded (fuel : nat) (w : World (S * dtrack.Journal)) :
  exists sent,
    dtrack.journal
      (snd (DependencyTrack.UploadBOM pick dt fuel ctx projectName projectVersion
              parentName parentVersion bom isLatest namespace serviceName w))
    = dtrack.journal w ++ sent
    /\ (Requests.count Requests.isLookup sent <= 2)%nat
    /\ (Requests.count Requests.isCreate sent <= 1)%nat
    /\ (Requests.count Requests.isUpload sent <= 1)%nat
    /\ Requests.count Requests.isUpdate sent = 0%nat.
Proof.
  unfold DependencyTrack.UploadBOM, DependencyTrack.ensureProject.
  cbn [DependencyTrack.Client DependencyTrack.observed dtrack.recording
         dtrack.Project_Lookup dtrack.Project_Create].
  unfold dtrack.note.
  destruct (dtrack.Project_Lookup c ctx projectName projectVersion (dtrack.inner w))
    as [[project | e0] [s1 t1]]; cbn [fst snd srv now].
  - match goal with
    | |- context [dtrack.BOM_Upload _ _ _ ?v] =>
        destruct (submit_requests fuel project v) as (rest & Hrest & Hl & Hc & Hu & Hd)
    end.
    eexists. split.
    + etransitivity; [exact Hrest |]. cbn. rewrite <- app_assoc. reflexivity.
    + cbn [app]. rewrite !count_cons, Hl, Hc, Hu, Hd. cbn. lia.
  - rewrite inner_mkWorld.
    destruct (dtrack.Project_Create c ctx
                (DependencyTrack.newProject projectName projectVersion) (mkWorld s1 t1))
      as [[created | e1] [s2 t2]]; cbn [fst snd srv now].
    + rewrite inner_mkWorld.
      destruct (dtrack.Project_Lookup c ctx projectName projectVersion (mkWorld s2 t2))
        as [[project | e2] [s3 t3]]; cbn [fst snd srv now].
      * match goal with
        | |- context [dtrack.BOM_Upload _ _
                        (DependencyTrack.uploadRequest ?p _ _ _ _ _) ?v] =>
            destruct (submit_requests fuel p v) as (rest & Hrest & Hl & Hc & Hu & Hd)
        end.
        eexists. split.
        -- etransitivity; [exact Hrest |]. cbn. rewrite <- !app_assoc. reflexivity.
        -- cbn [app]. rewrite !count_cons, Hl, Hc, Hu, Hd. cbn. lia.
      * eexists. split; [cbn; rewrite <- !app_assoc; reflexivity | cbn; lia].
    + eexists. split; [cbn; rewrite <- !app_assoc; reflexivity | cbn; lia].
Qed.

(** X14. Called with an empty tag list, [AddTagsToProject] still looks the
    project up and sends it to the update, unchanged. *)
Theorem AddTagsToProject_without_tags (w : World (S * dtrack.Journal))
    (project : dtrack.Project) (w1 : World S) :
  dtrack.Project_Lookup c ctx projectName projectVersion (dtrack.inner w)
    = (Ok project, w1) ->
  dtrack.journal
    (snd (DependencyTrack.AddTagsToProject dt ctx projectName projectVersion []
            namespace serviceName w))
  = dtrack.journal w
    ++ [(now w, dtrack.ReqLookup projectName projectVersion);
        (now w1, dtrack.ReqUpdate project)].
Proof.
  intros Hlookup.
  destruct (AddTagsToProject_found c timeout interval ctx projectName projectVersion
              namespace serviceName [] w project w1 Hlookup) as (_ & _ & Hj).
  rewrite Hj. destruct project. unfold DependencyTrack.tagged. cbn.
  now rewrite app_nil_r.
Qed.

End RequestsOfUpload.

(** ** The earlier variant of the arbiter *)

Section LegacyArbiter.
Context {S : Type}.
Variable Parse_RFC3339 : string -> result Z.
Variable Project_Latest :
  context.Context -> string -> World S -> result dtrack.Project * World S.
Variable ctx : context.Context.
Variables projectName projectVersion creationTimestamp : string.
Variable w : World S.

Local Abbreviation IsLatest :=
  (Legacy.IsLatest Parse_RFC3339 Project_Latest ctx projectName projectVersion
     creationTimestamp w).

(** X15. The earlier [IsLatest]. A timestamp that does not parse gives
    (false, the parse error wrapped) and the service is not asked. A
    timestamp that parses never gives an error: the answer is true when the
    project has no latest version; otherwise it is true exactly when the
    latest version is the very version uploaded, or the timestamp is
    strictly after that version's last BOM import (milliseconds since the
    epoch). *)
Theorem Legacy_IsLatest_decision :
  (forall err, Parse_RFC3339 creationTimestamp = Fail err ->
     IsLatest = ((false, Some (Legacy.Errorf_w "invalid creationTimestamp: " err)), w))
  /\ (forall ts, Parse_RFC3339 creationTimestamp = Ok ts ->
        (forall err w1, Project_Latest ctx projectName w = (Fail err, w1) ->
           IsLatest = ((true, None), w1))
        /\ (forall project w1,
              Project_Latest ctx projectName w = (Ok project, w1) ->
              is_int64 (dtrack.LastBOMImport project) ->
              snd IsLatest = w1
              /\ snd (fst IsLatest) = None
              /\ (fst (fst IsLatest) = true
                  <-> dtrack.Version project = projectVersion
                      \/ dtrack.LastBOMImport project * 1000000 < ts))).
Proof.
  unfold Legacy.IsLatest. split.
  - intros err ->. reflexivity.
  - intros ts ->. split.
    + intros err w1 ->. reflexivity.
    + intros project w1 -> Hint. rewrite (int64_exact _ Hint).
      unfold Legacy.After, Legacy.UnixMilli.
      destruct (String.eqb_spec (dtrack.Version project) projectVersion) as [Hv | Hv].
      * cbn [fst snd]. split; [reflexivity | split; [reflexivity |]].
        split; [now left | reflexivity].
      * destruct (Z.ltb_spec (dtrack.LastBOMImport project * 1000000) ts) as [Hlt | Hge];
          cbn [fst snd]; (split; [reflexivity | split; [reflexivity |]]).
        -- split; [now right | reflexivity].
        -- split; [discriminate |].
           intros [Heq | Hlt]; [contradiction | lia].
Qed.

End LegacyArbiter.

(** ** The further properties on the test doubles *)

Lemma Run_calls_carry_resolved_fields_witness :
  Forall
    (Resolved.carried FakeReport.api FakeReport.render (FakeReport.cfg ["kind"])
       {| FakeReport.verb := "update"; FakeReport.timestamp := "1700000000";
          FakeReport.payload := [x4d] |}
       [("name", "myproj"); ("version", "v1"); ("kind", "Pod")])
    (snd (snd (FakeRun.Run ["kind"] [x01; x4d] (FakeRun.done Fake.empty)))).
Proof.
  apply (Run_calls_carry_resolved_fields FakeReport.api FakeReport.render
           (FakeRun.bounded Fake.firstReady 8 Fake.recorded) [] context.Background
           (FakeReport.cfg ["kind"]) [x01; x4d]);
    reflexivity.
Defined.

Lemma Run_resolution_failure_witness :
  FakeRun.Run ["kind"; "nosuchkey"; "name"] [x01; x4d] Fake.empty
  = (Some (errorString "template: no such key"), (Fake.start Fake.empty, [])).
Proof.
  apply (Run_resolution_failure FakeReport.api FakeReport.render
           (FakeRun.bounded Fake.firstReady 8 Fake.recorded) [] context.Background
           (FakeReport.cfg ["kind"; "nosuchkey"; "name"]) [x01; x4d]
           {| FakeReport.verb := "update"; FakeReport.timestamp := "1700000000";
              FakeReport.payload := [x4d] |}).
  - reflexivity.
  - reflexivity.
  - right. exists [("name", "myproj"); ("version", "v1"); ("kind", "Pod")].
    split; [reflexivity |].
    right. exists "myproj". split; [reflexivity |].
    right. exists "v1". split; [reflexivity |].
    left. reflexivity.
Defined.

Lemma Run_upload_failure_skips_tags_witness :
  let refused := {| Fake.store := []; Fake.racer := None; Fake.updateErr := None;
                    Fake.uploadErr := Some (ServiceError "400 invalid BOM");
                    Fake.polls := [] |} in
  fst (FakeRun.Run ["kind"] [x01; x4d] refused) = Some (ServiceError "400 invalid BOM")
  /\ filter DependencyTrackClient.isAddTags
       (snd (snd (FakeRun.Run ["kind"] [x01; x4d] refused))) = [].
Proof.
  intro refused.
  destruct (Run_upload_failure_skips_tags FakeReport.api FakeReport.render
              (FakeRun.bounded Fake.firstReady 8 Fake.recorded) [] context.Background
              (FakeReport.cfg ["kind"]) [x01; x4d]
              {| FakeReport.verb := "update"; FakeReport.timestamp := "1700000000";
                 FakeReport.payload := [x4d] |}
              [("name", "myproj"); ("version", "v1"); ("kind", "Pod")]
              "myproj" "v1" "" "" ["Pod"]
              eq_refl eq_refl eq_refl eq_refl eq_refl eq_refl eq_refl eq_refl
              (Fake.start refused) (ServiceError "400 invalid BOM") eq_refl)
    as (Herr & _ & Hnone & _).
  split; assumption.
Defined.

Lemma Run_nil_iff_all_steps_succeed_witness :
  fst (FakeRun.Run ["kind"] [x01; x4d] (FakeRun.done Fake.empty)) = None.
Proof.
  apply (Run_nil_iff_all_steps_succeed FakeReport.api FakeReport.render
           (FakeRun.bounded Fake.firstReady 8 Fake.recorded) [] context.Background
           (FakeReport.cfg ["kind"]) [x01; x4d]
           {| FakeReport.verb := "update"; FakeReport.timestamp := "1700000000";
              FakeReport.payload := [x4d] |}
           [("name", "myproj"); ("version", "v1"); ("kind", "Pod")]
           "myproj" "v1" "" "" ["Pod"]
           eq_refl eq_refl eq_refl eq_refl eq_refl eq_refl eq_refl eq_refl
           (Fake.start (FakeRun.done Fake.empty))).
  split; [reflexivity | right; reflexivity].
Defined.

Lemma UploadBOM_submit_failure_witness :
  let refused := {| Fake.store := [Fake.myproj 0 []]; Fake.racer := None;
                    Fake.updateErr := None;
                    Fake.uploadErr := Some (ServiceError "400 invalid BOM");
                    Fake.polls := [] |} in
  let out := DependencyTrack.UploadBOM Fake.firstReady Fake.recorded 8 context.Background
               "myproj" "v1" "" "" [x4d] true "" "" (Fake.start refused) in
  fst out = Returned (Some (ServiceError "400 invalid BOM"))
  /\ Requests.count Requests.isCheck (dtrack.journal (snd out)) = 0%nat.
Proof.
  intros refused out. subst out.
  erewrite (UploadBOM_submit_failure Fake.firstReady Fake.recorded context.Background
              "myproj" "v1" "" "" [x4d] true "" "" (Fake.start refused)); cycle 1.
  - reflexivity.
  - reflexivity.
  - split; reflexivity.
Defined.

Lemma UploadBOM_first_check_decides_witness :
  let held := {| Fake.store := [Fake.myproj 0 []]; Fake.racer := None;
                 Fake.updateErr := None; Fake.uploadErr := None;
                 Fake.polls := [(Ok false, 0)] |} in
  let failing := {| Fake.store := [Fake.myproj 0 []]; Fake.racer := None;
                    Fake.updateErr := None; Fake.uploadErr := None;
                    Fake.polls := [(Fail (ServiceError "503 unavailable"), 0)] |} in
  let run s := DependencyTrack.UploadBOM Fake.firstReady Fake.recorded 1 context.Background
                 "myproj" "v1" "" "" [x4d] true "" "" (Fake.start s) in
  fst (run held) = Returned None
  /\ now (snd (run held)) = Fake.second
  /\ fst (run failing) = Returned (Some (ServiceError "503 unavailable")).
Proof.
  intros held failing run. subst run. cbv beta. split; [| split].
  - erewrite (UploadBOM_first_check_decides Fake.firstReady Fake.recorded context.Background
                "myproj" "v1" "" "" [x4d] true "" "" (Fake.start held)); cycle 1.
    + reflexivity.
    + reflexivity.
    + split; reflexivity.
    + intros d Hd. discriminate Hd.
    + reflexivity.
    + discriminate.
    + reflexivity.
  - erewrite (UploadBOM_first_check_decides Fake.firstReady Fake.recorded context.Background
                "myproj" "v1" "" "" [x4d] true "" "" (Fake.start held)); cycle 1.
    + reflexivity.
    + reflexivity.
    + split; reflexivity.
    + intros d Hd. discriminate Hd.
    + reflexivity.
    + discriminate.
    + reflexivity.
  - erewrite (UploadBOM_first_check_decides Fake.firstReady Fake.recorded context.Background
                "myproj" "v1" "" "" [x4d] true "" "" (Fake.start failing)); cycle 1.
    + reflexivity.
    + reflexivity.
    + split; reflexivity.
    + intros d Hd. discriminate Hd.
    + reflexivity.
    + discriminate.
    + reflexivity.
Defined.

Lemma UploadBOM_timeout_shorter_than_interval_witness :
  let hasty := DependencyTrack.observed Fake.client (1 * Fake.second) (5 * Fake.second) in
  let held := {| Fake.store := [Fake.myproj 0 []]; Fake.racer := None;
                 Fake.updateErr := None; Fake.uploadErr := None;
                 Fake.polls := [(Ok false, 0)] |} in
  let out := DependencyTrack.UploadBOM Fake.firstReady hasty 1 context.Background
               "myproj" "v1" "" "" [x4d] true "" "" (Fake.start held) in
  fst out = Returned (Some (errorString "timeout exceeded"))
  /\ now (snd out) = Fake.second
  /\ Requests.count Requests.isCheck (dtrack.journal (snd out)) = 0%nat.
Proof.
  intros hasty held out. subst out.
  erewrite (UploadBOM_timeout_shorter_than_interval Fake.firstReady hasty context.Background
              "myproj" "v1" "" "" [x4d] true "" "" (Fake.start held)); cycle 1.
  - reflexivity.
  - reflexivity.
  - reflexivity.
  - reflexivity.
  - reflexivity.
  - repeat split.
Defined.

Lemma UploadBOM_nonpositive_interval_panics_witness :
  let unset := DependencyTrack.observed Fake.client (30 * Fake.second) 0 in
  let out := DependencyTrack.UploadBOM Fake.firstReady unset 8 context.Background
               "myproj" "v1" "" "" [x4d] true "" "" (Fake.start Fake.empty) in
  fst out = Panicked "non-positive interval for NewTicker"
  /\ Requests.count Requests.isUpload (dtrack.journal (snd out)) = 1%nat.
Proof.
  intros unset out. subst out.
  erewrite (UploadBOM_nonpositive_interval_panics Fake.firstReady unset context.Background
              "myproj" "v1" "" "" [x4d] true "" "" (Fake.start Fake.empty)); cycle 1.
  - reflexivity.
  - reflexivity.
  - discriminate.
  - split; reflexivity.
Defined.

Lemma pollTask_never_times_out_while_busy_witness :
  let out := DependencyTrack.pollTask Fake.firstReady Fake.recorded 40 context.Background
               "token-1" (Fake.start Fake.empty) in
  fst out = Unfinished
  /\ List.length (dtrack.journal (snd out)) = 40%nat
  /\ 40 * Fake.second <= now (snd out).
Proof.
  apply (pollTask_never_times_out_while_busy Fake.firstReady Fake.client
           (30 * Fake.second) (1 * Fake.second) context.Background "token-1"
           (fun v => Fake.polls (srv v) = []) 40 (Fake.start Fake.empty)).
  - split; reflexivity.
  - reflexivity.
  - intros v Hv. unfold Fake.client, Fake.IsBeingProcessed. cbn. rewrite Hv. cbn.
    repeat split; [lia | exact Hv].
  - intros v t Hv. exact Hv.
  - reflexivity.
Defined.

Lemma pollTask_check_schedule_witness :
  exists sent,
    dtrack.journal
      (snd (DependencyTrack.pollTask Fake.firstReady Fake.recorded 3 context.Background
              "token-1" (Fake.start Fake.empty)))
    = [] ++ sent
    /\ Forall (fun q => snd q = dtrack.ReqIsBeingProcessed "token-1") sent
    /\ forall i t q, nth_error sent i = Some (t, q) ->
                     0 + (Z.of_nat i + 1) * (1 * Fake.second) <= t.
Proof.
  apply (pollTask_check_schedule Fake.firstReady Fake.client (30 * Fake.second)
           (1 * Fake.second) context.Background "token-1" 3 (Fake.start Fake.empty)).
  reflexivity.
Defined.

Lemma AddTagsToProject_without_tags_witness :
  let tagged := Fake.myproj 7 [{| dtrack.TagName := "Pod" |}] in
  dtrack.journal
    (snd (DependencyTrack.AddTagsToProject Fake.recorded context.Background
            "myproj" "v1" [] "" ""
            (Fake.start {| Fake.store := [tagged]; Fake.racer := None;
                           Fake.updateErr := None; Fake.uploadErr := None;
                           Fake.polls := [] |})))
  = [] ++ [(0, dtrack.ReqLookup "myproj" "v1"); (0, dtrack.ReqUpdate tagged)].
Proof.
  intro tagged.
  eapply (AddTagsToProject_without_tags Fake.client (30 * Fake.second) (1 * Fake.second)
            context.Background "myproj" "v1" "" ""
            (Fake.start {| Fake.store := [tagged]; Fake.racer := None;
                           Fake.updateErr := None; Fake.uploadErr := None;
                           Fake.polls := [] |}) tagged
            (mkWorld {| Fake.store := [tagged]; Fake.racer := None;
                        Fake.updateErr := None; Fake.uploadErr := None;
                        Fake.polls := [] |} 0)).
  reflexivity.
Defined.

Lemma Legacy_IsLatest_decision_witness :
  let IsLatest version stamp l :=
    Legacy.IsLatest FakeLegacy.Parse FakeLegacy.Latest context.Background
      "myproj" version stamp (FakeLegacy.holding l) in
  let noon := "2023-11-14T22:13:20Z" in
  fst (IsLatest "v1" "14/11/2023" [])
  = (false, Some (Legacy.Errorf_w "invalid creationTimestamp: "
                    (errorString "parsing time: cannot parse as RFC 3339")))
  /\ fst (IsLatest "v1" noon []) = (true, None)
  /\ (fst (fst (IsLatest "v1" noon [Fake.myproj 0 []; FakeLegacy.v2 1700000000000])) = true
      <-> "v2" = "v1" \/ 1700000000000 * 1000000 < 1700000000000000000).
Proof.
  intros IsLatest noon. subst IsLatest. cbv beta. split; [| split].
  - destruct (Legacy_IsLatest_decision FakeLegacy.Parse FakeLegacy.Latest context.Background
                "myproj" "v1" "14/11/2023" (FakeLegacy.holding [])) as [Hbad _].
    now rewrite (Hbad _ eq_refl).
  - destruct (Legacy_IsLatest_decision FakeLegacy.Parse FakeLegacy.Latest context.Background
                "myproj" "v1" noon (FakeLegacy.holding [])) as [_ Hgood].
    destruct (Hgood _ eq_refl) as [Hnone _].
    now rewrite (Hnone _ _ eq_refl).
  - destruct (Legacy_IsLatest_decision FakeLegacy.Parse FakeLegacy.Latest context.Background
                "myproj" "v1" noon
                (FakeLegacy.holding [Fake.myproj 0 []; FakeLegacy.v2 1700000000000]))
      as [_ Hgood].
    destruct (Hgood _ eq_refl) as [_ Hsome].
    refine (proj2 (proj2 (Hsome (FakeLegacy.v2 1700000000000) _ eq_refl _))).
    unfold is_int64, int64_min, int64_max. cbn. lia.
Defined.
